(** * dandi.delete: registration and execution of remote deletions

    A shallow embedding of [dandi/delete.py].  The [Deleter] dataclass is a
    record; its methods mutate [self] and may raise, so they are functions
    in a state-and-exception monad over that record in which the state
    reached before a [raise] is kept.  The REST client, the URL parser, the
    local file system and the confirmation prompt are collaborators of the
    module: they are fields of an environment record.  Destructive calls,
    prompts and printed records are collected in a chronological trace.
    The commands of [dandi/cli/cmd_validate.py] follow, on a console of
    their own. *)

From Stdlib Require Import List Bool Arith Lia String Ascii Permutation.
From Stdlib Require Import DecimalString Sorted.
Import ListNotations.
Open Scope string_scope.

(** ** Python strings *)

Module PyStr.

Definition slash : ascii := "/"%char.

(** [s.rstrip("/")]: every trailing slash is removed. *)
Fixpoint rstrip_slash (s : string) : string :=
  match s with
  | EmptyString => EmptyString
  | String c s' =>
      match rstrip_slash s' with
      | EmptyString =>
          if Ascii.eqb c slash then EmptyString else String c EmptyString
      | r => String c r
      end
  end.

(** [s.endswith("/")]. *)
Fixpoint endswith_slash (s : string) : bool :=
  match s with
  | EmptyString => false
  | String c EmptyString => Ascii.eqb c slash
  | String _ s' => endswith_slash s'
  end.

(** A run of [n] slashes. *)
Fixpoint slashes (n : nat) : string :=
  match n with
  | O => EmptyString
  | S n' => String slash (slashes n')
  end.

(** [needle in s]. *)
Fixpoint contains (needle s : string) : bool :=
  String.prefix needle s
  || match s with
     | EmptyString => false
     | String _ s' => contains needle s'
     end.

(** [str(n)] for a non-negative integer. *)
Definition str_of_nat (n : nat) : string :=
  NilZero.string_of_uint (Nat.to_uint n).

Definition hex_digit (n : nat) : ascii :=
  match n with
  | 0 => "0" | 1 => "1" | 2 => "2" | 3 => "3" | 4 => "4" | 5 => "5"
  | 6 => "6" | 7 => "7" | 8 => "8" | 9 => "9" | 10 => "a" | 11 => "b"
  | 12 => "c" | 13 => "d" | 14 => "e" | _ => "f"
  end%char.

Definition has_char (c : ascii) (s : string) : bool :=
  existsb (Ascii.eqb c) (list_ascii_of_string s).

(** The quote [repr] chooses: a double quote only when the string holds a
    single quote and no double quote. *)
Definition dquote : ascii := ascii_of_nat 34.

Definition repr_quote (s : string) : ascii :=
  if has_char "'"%char s && negb (has_char dquote s)
  then dquote else "'"%char.

(** One character of [repr(s)], for a character below 128. *)
Definition repr_char (q c : ascii) : string :=
  let n := nat_of_ascii c in
  if Ascii.eqb c q || Ascii.eqb c "\"%char then String "\"%char (String c EmptyString)
  else if Nat.eqb n 9 then "\t"
  else if Nat.eqb n 10 then "\n"
  else if Nat.eqb n 13 then "\r"
  else if Nat.ltb n 32 || Nat.eqb n 127 then
    String "\"%char (String "x"%char
      (String (hex_digit (n / 16)) (String (hex_digit (n mod 16)) EmptyString)))
  else String c EmptyString.

Fixpoint repr_body (q : ascii) (s : string) : string :=
  match s with
  | EmptyString => EmptyString
  | String c s' => repr_char q c ++ repr_body q s'
  end.

Definition is_ascii (s : string) : bool :=
  forallb (fun c => Nat.ltb (nat_of_ascii c) 128) (list_ascii_of_string s).

(** [repr(s)] for a string of ASCII characters.  For other text [repr]
    depends on which code points Unicode calls printable; no answer is
    given for it here. *)
Definition repr_ascii (s : string) : option string :=
  if is_ascii s then
    let q := repr_quote s in
    Some (String q (repr_body q s ++ String q EmptyString))
  else None.

End PyStr.

(** ** Exceptions *)

Inductive exn_class : Type :=
| NotFoundError
| ValueError
| NotImplementedError
| AttributeError
| RuntimeError
| OtherError (name : string)
| BaseExceptionOnly (name : string).

Definition class_name (c : exn_class) : string :=
  match c with
  | NotFoundError => "NotFoundError"
  | ValueError => "ValueError"
  | NotImplementedError => "NotImplementedError"
  | AttributeError => "AttributeError"
  | RuntimeError => "RuntimeError"
  | OtherError n => n
  | BaseExceptionOnly n => n
  end.

(** A raised exception: its class and [str(e)].  [OtherError] stands for
    any further subclass of [Exception]; [BaseExceptionOnly] for a class
    that derives from [BaseException] and not from [Exception]
    ([KeyboardInterrupt], [SystemExit], [GeneratorExit]). *)
Record exn : Type := Exn { exn_cls : exn_class; exn_msg : string }.

(** [except Exception]. *)
Definition is_Exception (e : exn) : bool :=
  match exn_cls e with
  | BaseExceptionOnly _ => false
  | _ => true
  end.

(** [except NotFoundError]. *)
Definition is_NotFoundError (e : exn) : bool :=
  match exn_cls e with
  | NotFoundError => true
  | _ => false
  end.

(** What evaluating [None.attr] raises. *)
Definition none_has_no (attr : string) : exn :=
  Exn AttributeError ("'NoneType' object has no attribute '" ++ attr ++ "'").

(** ** Data model *)

Record RemoteAsset : Type :=
  { asset_identifier : string; asset_path : string }.

Record RemoteDandiset : Type := { dandiset_identifier : string }.

(** The client keeps the URL it was built with. *)
Record DandiAPIClient : Type := { client_api_url : string }.

(** The result of [parse_dandi_url]; [is_dandiset_url] is
    [isinstance(parsed_url, DandisetURL)], [url_scope] stands for whatever
    else the subclass carries (path, folder, search filter). *)
Record ParsedDandiURL : Type :=
  { url_api_url : string;
    url_dandiset_id : string;
    url_version_id : option string;
    is_dandiset_url : bool;
    url_scope : string }.

Definition with_version (v : string) (p : ParsedDandiURL) : ParsedDandiURL :=
  {| url_api_url := url_api_url p;
     url_dandiset_id := url_dandiset_id p;
     url_version_id := Some v;
     is_dandiset_url := is_dandiset_url p;
     url_scope := url_scope p |}.

Record DandiInstance : Type := { instance_api : string }.

(** A local [Dandiset]: its identifier and root directory. *)
Record LocalDandiset : Type :=
  { local_identifier : string; local_path : string }.

(** A lazy sequence of assets: what it yields, then how it ends. *)
Record AssetIter : Type :=
  { yielded : list RemoteAsset; failure : option exn }.

Record Deleter : Type :=
  { client : option DandiAPIClient;
    dandiset : option RemoteDandiset;
    deleting_dandiset : bool;
    skip_missing : bool;
    remote_assets : list RemoteAsset }.

(** [Deleter(skip_missing=b)]. *)
Definition new_Deleter (b : bool) : Deleter :=
  {| client := None; dandiset := None; deleting_dandiset := false;
     skip_missing := b; remote_assets := [] |}.

Definition set_client (c : DandiAPIClient) (d : Deleter) : Deleter :=
  {| client := Some c; dandiset := dandiset d;
     deleting_dandiset := deleting_dandiset d;
     skip_missing := skip_missing d; remote_assets := remote_assets d |}.

Definition set_dandiset_field (ds : RemoteDandiset) (d : Deleter) : Deleter :=
  {| client := client d; dandiset := Some ds;
     deleting_dandiset := deleting_dandiset d;
     skip_missing := skip_missing d; remote_assets := remote_assets d |}.

Definition set_deleting_dandiset (b : bool) (d : Deleter) : Deleter :=
  {| client := client d; dandiset := dandiset d;
     deleting_dandiset := b;
     skip_missing := skip_missing d; remote_assets := remote_assets d |}.

Definition set_remote_assets (l : list RemoteAsset) (d : Deleter) : Deleter :=
  {| client := client d; dandiset := dandiset d;
     deleting_dandiset := deleting_dandiset d;
     skip_missing := skip_missing d; remote_assets := l |}.

(** [Deleter.__bool__]. *)
Definition Deleter_bool (d : Deleter) : bool :=
  deleting_dandiset d
  || match remote_assets d with [] => false | _ :: _ => true end.

(** ** Collaborators *)

Record Env : Type :=
  { (* consts *)
    DRAFT : string;
    dandiset_metadata_file : string;
    (* dandiapi *)
    dandi_authenticate : DandiAPIClient -> option exn;
    get_dandiset :
      DandiAPIClient -> string -> string -> bool -> exn + RemoteDandiset;
    get_asset_by_path : RemoteDandiset -> string -> exn + RemoteAsset;
    get_assets_with_path_prefix : RemoteDandiset -> string -> AssetIter;
    asset_delete : RemoteAsset -> option exn;
    dandiset_delete : RemoteDandiset -> option exn;
    (* dandiarchive *)
    parse_dandi_url : string -> exn + ParsedDandiURL;
    get_assets : ParsedDandiURL -> option DandiAPIClient -> AssetIter;
    (* utils *)
    get_instance : string -> exn + DandiInstance;
    is_url : string -> bool;
    (* pathlib and dandiset.Dandiset.find *)
    path_absolute : string -> string;
    path_parent : string -> string;
    path_relative_to : string -> string -> exn + string;
    path_is_dir : string -> bool;
    Dandiset_find : string -> option LocalDandiset;
    (* click *)
    click_confirm : string -> bool;
    (* builtins: [repr] of a string, as [{s!r}] inserts it *)
    py_repr : string -> string }.

(** ** The monad of methods: state kept across a raise *)

Inductive result (A : Type) : Type :=
| Ok (a : A)
| Raise (e : exn).
Arguments Ok {A} a.
Arguments Raise {A} e.

Definition M (S A : Type) : Type := S -> result A * S.

Definition ret {S A : Type} (a : A) : M S A := fun s => (Ok a, s).

Definition raise {S A : Type} (e : exn) : M S A := fun s => (Raise e, s).

Definition bind {S A B : Type} (m : M S A) (k : A -> M S B) : M S B :=
  fun s =>
    match m s with
    | (Ok a, s') => k a s'
    | (Raise e, s') => (Raise e, s')
    end.

Definition get {S : Type} : M S S := fun s => (Ok s, s).

Definition modify {S : Type} (f : S -> S) : M S unit := fun s => (Ok tt, f s).

Declare Scope py_scope.
Delimit Scope py_scope with py.
Notation "x <- m ;; k" := (bind m (fun x => k))
  (at level 100, m at next level, right associativity) : py_scope.
Notation "m ;;; k" := (bind m (fun _ => k))
  (at level 100, right associativity) : py_scope.
Open Scope py_scope.

(** [for x in l: body(x)]. *)
Fixpoint for_each {S A : Type} (l : list A) (body : A -> M S unit) : M S unit :=
  match l with
  | [] => ret tt
  | x :: l' => body x ;;; for_each l' body
  end.

(** ** is_same_url *)

Definition is_same_url (url1 url2 : string) : bool :=
  String.eqb (PyStr.rstrip_slash url1) (PyStr.rstrip_slash url2).

(** The reading of the specification: at most one trailing slash is removed
    from each side before the comparison. *)
Fixpoint strip_one_trailing_slash (s : string) : string :=
  match s with
  | EmptyString => EmptyString
  | String c EmptyString =>
      if Ascii.eqb c PyStr.slash then EmptyString else s
  | String c s' => String c (strip_one_trailing_slash s')
  end.

Definition is_same_url_one_slash (url1 url2 : string) : bool :=
  String.eqb (strip_one_trailing_slash url1) (strip_one_trailing_slash url2).

(** ** The Deleter *)

Section Deleter_methods.

Variable E : Env.

Definition mixing_instances : exn :=
  Exn ValueError "Cannot delete assets from multiple API instances at once".

Definition mixing_dandisets : exn :=
  Exn ValueError "Cannot delete assets from multiple Dandisets at once".

Definition set_dandiset (api_url dandiset_id : string) : M Deleter bool :=
  self <- get ;;
  match client self with
  | None =>
      let c := {| client_api_url := PyStr.rstrip_slash api_url |} in
      modify (set_client c) ;;;
      match dandi_authenticate E c with
      | Some e => raise e
      | None =>
          match get_dandiset E c dandiset_id (DRAFT E) false with
          | inr ds => modify (set_dandiset_field ds) ;;; ret true
          | inl e =>
              if is_NotFoundError e then
                if skip_missing self then ret false else raise e
              else raise e
          end
      end
  | Some c =>
      if negb (is_same_url (client_api_url c) api_url) then
        raise mixing_instances
      else
        match dandiset self with
        | None => raise (none_has_no "identifier")
        | Some ds =>
            if negb (String.eqb (dandiset_identifier ds) dandiset_id) then
              raise mixing_dandisets
            else ret true
        end
  end.

Definition same_identifier (asset a : RemoteAsset) : bool :=
  String.eqb (asset_identifier a) (asset_identifier asset).

Definition add_asset (asset : RemoteAsset) : M Deleter unit :=
  self <- get ;;
  if negb (existsb (same_identifier asset) (remote_assets self)) then
    modify (fun d => set_remote_assets (remote_assets d ++ [asset]) d)
  else ret tt.

Definition register_dandiset (api_url dandiset_id : string) : M Deleter unit :=
  bound <- set_dandiset api_url dandiset_id ;;
  if negb bound then ret tt
  else modify (set_deleting_dandiset true).

Definition asset_not_found (asset_path dandiset_id : string) : exn :=
  Exn NotFoundError
    ("Asset at path " ++ py_repr E asset_path
       ++ " not found in Dandiset " ++ dandiset_id).

Definition register_asset
  (api_url dandiset_id version_id asset_path : string) : M Deleter unit :=
  bound <- set_dandiset api_url dandiset_id ;;
  if negb bound then ret tt
  else
    self <- get ;;
    match dandiset self with
    | None => raise (none_has_no "get_asset_by_path")
    | Some ds =>
        match get_asset_by_path E ds asset_path with
        | inr asset => add_asset asset
        | inl e =>
            if is_NotFoundError e then
              if skip_missing self then ret tt
              else raise (asset_not_found asset_path dandiset_id)
            else raise e
        end
    end.

(** The body shared by the two loops over a lazy sequence of assets: each
    yielded asset is added, an exception of the sequence escapes the loop,
    and an exhausted sequence that yielded nothing is the error [missing]
    unless missing targets are skipped. *)
Definition add_all_assets (it : AssetIter) (missing : exn) : M Deleter unit :=
  for_each (yielded it) add_asset ;;;
  match failure it with
  | Some e => raise e
  | None =>
      self <- get ;;
      let any_assets := match yielded it with [] => false | _ :: _ => true end in
      if negb any_assets && negb (skip_missing self) then raise missing
      else ret tt
  end.

Definition folder_not_found (folder_path dandiset_id : string) : exn :=
  Exn NotFoundError
    ("No assets under path " ++ py_repr E folder_path
       ++ " found in Dandiset " ++ dandiset_id).

Definition register_asset_folder
  (api_url dandiset_id version_id folder_path : string) : M Deleter unit :=
  bound <- set_dandiset api_url dandiset_id ;;
  if negb bound then ret tt
  else
    self <- get ;;
    match dandiset self with
    | None => raise (none_has_no "get_assets_with_path_prefix")
    | Some ds =>
        add_all_assets (get_assets_with_path_prefix E ds folder_path)
          (folder_not_found folder_path dandiset_id)
    end.

Definition url_not_found (url : string) : exn :=
  Exn NotFoundError ("No assets found for " ++ url).

Definition register_assets_url
  (url : string) (parsed_url : ParsedDandiURL) : M Deleter unit :=
  bound <- set_dandiset (url_api_url parsed_url) (url_dandiset_id parsed_url) ;;
  if negb bound then ret tt
  else
    self <- get ;;
    add_all_assets (get_assets E parsed_url (client self)) (url_not_found url).

Definition version_deletion_unsupported : exn :=
  Exn NotImplementedError
    "Dandi API server does not support deletion of individual versions of a dandiset".

Definition register_url (url : string) : M Deleter unit :=
  match parse_dandi_url E url with
  | inl e => raise e
  | inr parsed_url =>
      if is_dandiset_url parsed_url then
        match url_version_id parsed_url with
        | Some _ => raise version_deletion_unsupported
        | None =>
            register_dandiset (url_api_url parsed_url)
              (url_dandiset_id parsed_url)
        end
      else
        let parsed_url :=
          match url_version_id parsed_url with
          | None => with_version (DRAFT E) parsed_url
          | Some _ => parsed_url
          end in
        register_assets_url url parsed_url
  end.

Definition no_dandiset_found : exn :=
  Exn RuntimeError
    ("Found no " ++ dandiset_metadata_file E
       ++ " anywhere.  Use 'dandi download' or 'organize' first").

Definition find_local_asset (filepath : string) : exn + (string * string) :=
  let path := path_absolute E filepath in
  match Dandiset_find E (path_parent E path) with
  | None => inl no_dandiset_found
  | Some ds =>
      match path_relative_to E path (local_path ds) with
      | inl e => inl e
      | inr rel =>
          let relpath := if path_is_dir E path then rel ++ "/" else rel in
          inr (local_identifier ds, relpath)
      end
  end.

Definition register_local_path_equivalent
  (instance_name filepath : string) : M Deleter unit :=
  match get_instance E instance_name with
  | inl e => raise e
  | inr instance =>
      let api_url := instance_api instance in
      match find_local_asset filepath with
      | inl e => raise e
      | inr (dandiset_id, asset_path) =>
          bound <- set_dandiset api_url dandiset_id ;;
          if negb bound then ret tt
          else if PyStr.endswith_slash asset_path then
            register_asset_folder api_url dandiset_id (DRAFT E) asset_path
          else
            register_asset api_url dandiset_id (DRAFT E) asset_path
      end
  end.

End Deleter_methods.

(** ** Execution *)

(** A Python dict with string keys and values, in insertion order. *)
Definition pydict : Type := list (string * string).

Fixpoint dict_get (k : string) (d : pydict) : option string :=
  match d with
  | [] => None
  | (k', v) :: d' => if String.eqb k' k then Some v else dict_get k d'
  end.

(** One step of a generator: a value handed to the consumer, a call of
    [asset.delete()] made between two yields, or an exception that leaves
    the generator and reaches whoever advances it. *)
Inductive step : Type :=
| Yield (d : pydict)
| DoDelete (a : RemoteAsset)
| Propagate (e : exn).

Definition map_yield (f : pydict -> pydict) (s : step) : step :=
  match s with
  | Yield d => Yield (f d)
  | DoDelete a => DoDelete a
  | Propagate e => Propagate e
  end.

(** A row handed to the table: [{"path": ..., ("status", "message"): gen}]. *)
Record pyout_row : Type :=
  { row_path : string; row_status_message : list step }.

(** What the outside world observes, oldest first.  A row handed to the
    table carries its generator not yet run: running it is the table's
    business. *)
Inductive event : Type :=
| EvConfirm (msg : string)
| EvDeleteDandiset (ds : RemoteDandiset)
| EvDeleteAsset (a : RemoteAsset)
| EvPrint (r : pydict)
| EvTableOpen (columns : list string) (max_workers : option nat)
| EvTableRow (row : pyout_row)
| EvTableClose.

Definition trace : Type := list event.

Definition log (ev : event) : M trace unit := modify (fun t => (t ++ [ev])%list).

(** [sorted(l, key=attrgetter("path"))]: stable, by code point order. *)
Fixpoint insert_by_path (a : RemoteAsset) (l : list RemoteAsset)
  : list RemoteAsset :=
  match l with
  | [] => [a]
  | b :: l' =>
      if String.leb (asset_path a) (asset_path b) then a :: b :: l'
      else b :: insert_by_path a l'
  end.

Fixpoint sorted_by_path (l : list RemoteAsset) : list RemoteAsset :=
  match l with
  | [] => []
  | a :: l' => insert_by_path a (sorted_by_path l')
  end.

Section Deleter_execution.

Variable E : Env.

(** The question [confirm] asks, given the Dandiset [self.dandiset] holds. *)
Definition confirm_msg (self : Deleter) (ds : RemoteDandiset) : string :=
  if deleting_dandiset self then
    "Delete Dandiset " ++ dandiset_identifier ds ++ "?"
  else
    "Delete " ++ PyStr.str_of_nat (List.length (remote_assets self))
      ++ " assets on server from Dandiset "
      ++ dandiset_identifier ds ++ "?".

Definition confirm (self : Deleter) : M trace bool :=
  match dandiset self with
  | None => raise (none_has_no "identifier")
  | Some ds =>
      let msg := confirm_msg self ds in
      log (EvConfirm msg) ;;;
      ret (click_confirm E msg)
  end.

Definition delete_dandiset (self : Deleter) : M trace unit :=
  if deleting_dandiset self then
    match dandiset self with
    | None => raise (none_has_no "delete")
    | Some ds =>
        log (EvDeleteDandiset ds) ;;;
        match dandiset_delete E ds with
        | Some e => raise e
        | None => ret tt
        end
    end
  else
    raise (Exn RuntimeError
             "delete_dandiset() called when Dandiset not registered for deletion").

Definition error_record (e : exn) : pydict :=
  [("status", "Error");
   ("message", class_name (exn_cls e) ++ ": " ++ exn_msg e)].

(** [except Exception] catches what derives from [Exception]; anything
    else [asset.delete()] raises leaves the generator. *)
Definition _process_asset (asset : RemoteAsset) : list step :=
  [ Yield [("status", "Deleting")];
    DoDelete asset;
    match asset_delete E asset with
    | Some e =>
        if is_Exception e then Yield (error_record e) else Propagate e
    | None => Yield [("status", "Deleted")]
    end ].

Definition process_assets_pyout (self : Deleter) : list pyout_row :=
  map (fun asset =>
         {| row_path := asset_path asset;
            row_status_message := _process_asset asset |})
      (sorted_by_path (remote_assets self)).

(** Each inner generator is drained before the outer one is advanced, so
    the [asset] its element expression reads is the one it was made for. *)
Definition process_assets_debug (self : Deleter) : list (list step) :=
  map (fun asset =>
         map (map_yield (fun d => ("path", asset_path asset) :: d))
             (_process_asset asset))
      (sorted_by_path (remote_assets self)).

(** Draining a generator: a yielded value goes to [consume], a deletion is
    a call to the server, an exception that leaves the generator ends the
    loop that drains it. *)
Definition drain (consume : pydict -> event) (gen : list step) : M trace unit :=
  for_each gen (fun s =>
    match s with
    | Yield d => log (consume d)
    | DoDelete a => log (EvDeleteAsset a)
    | Propagate e => raise e
    end).

Definition rec_fields : list string := ["path"; "status"; "message"].

Definition register_paths (paths : list string) (dandi_instance : string)
  : M Deleter unit :=
  for_each paths (fun p =>
    if is_url E p then register_url E p
    else register_local_path_equivalent E dandi_instance p).

(** The part of [delete] that follows the registration loop.  In the
    default mode the table is made with [rec_fields] and [jobs] workers and
    is handed the rows in path order; its workers run the generators, in
    an order this module does not fix. *)
Definition delete_registered
  (deleter : Deleter) (devel_debug : bool) (jobs : option nat) (force : bool)
  : M trace unit :=
  go <- (if Deleter_bool deleter then
           if force then ret true else confirm deleter
         else ret false) ;;
  if go then
    if deleting_dandiset deleter then delete_dandiset deleter
    else if devel_debug then
      for_each (process_assets_debug deleter) (drain EvPrint)
    else
      log (EvTableOpen rec_fields jobs) ;;;
      for_each (process_assets_pyout deleter) (fun row => log (EvTableRow row)) ;;;
      log EvTableClose
  else ret tt.

Definition delete
  (paths : list string) (dandi_instance : string) (devel_debug : bool)
  (jobs : option nat) (force skip_missing : bool) : M trace unit :=
  fun t =>
    match register_paths paths dandi_instance (new_Deleter skip_missing) with
    | (Raise e, _) => (Raise e, t)
    | (Ok _, deleter) => delete_registered deleter devel_debug jobs force t
    end.

End Deleter_execution.

(** ** Registration calls as data *)

Inductive registration : Type :=
| RegisterDandiset (api_url dandiset_id : string)
| RegisterAsset (api_url dandiset_id version_id asset_path : string)
| RegisterAssetFolder (api_url dandiset_id version_id folder_path : string)
| RegisterAssetsUrl (url : string) (parsed_url : ParsedDandiURL)
| RegisterUrl (url : string)
| RegisterLocalPathEquivalent (instance_name filepath : string).

Section Registrations.

Variable E : Env.

Definition run_registration (op : registration) : M Deleter unit :=
  match op with
  | RegisterDandiset a i => register_dandiset E a i
  | RegisterAsset a i v p => register_asset E a i v p
  | RegisterAssetFolder a i v p => register_asset_folder E a i v p
  | RegisterAssetsUrl u p => register_assets_url E u p
  | RegisterUrl u => register_url E u
  | RegisterLocalPathEquivalent n f => register_local_path_equivalent E n f
  end.

(** A caller that goes on after a failed registration: the state each call
    leaves is the state the next one starts from. *)
Fixpoint run_registrations (ops : list registration) (d : Deleter) : Deleter :=
  match ops with
  | [] => d
  | op :: ops' => run_registrations ops' (snd (run_registration op d))
  end.

(** The (endpoint, dandiset id) pair a registration call names, when its
    argument resolves to one. *)
Definition target (op : registration) : option (string * string) :=
  match op with
  | RegisterDandiset a i => Some (a, i)
  | RegisterAsset a i _ _ => Some (a, i)
  | RegisterAssetFolder a i _ _ => Some (a, i)
  | RegisterAssetsUrl _ p => Some (url_api_url p, url_dandiset_id p)
  | RegisterUrl u =>
      match parse_dandi_url E u with
      | inl _ => None
      | inr p => Some (url_api_url p, url_dandiset_id p)
      end
  | RegisterLocalPathEquivalent n f =>
      match get_instance E n, find_local_asset E f with
      | inr instance, inr (i, _) => Some (instance_api instance, i)
      | _, _ => None
      end
  end.

(** A [register_url] call whose URL is a whole Dandiset at an explicit
    version. *)
Definition versioned_dandiset_request (op : registration) : bool :=
  match op with
  | RegisterUrl u =>
      match parse_dandi_url E u with
      | inr p =>
          is_dandiset_url p
          && match url_version_id p with Some _ => true | None => false end
      | inl _ => false
      end
  | _ => false
  end.

End Registrations.

(** ** A small archive to run the model on *)

Module Demo.

Definition a1 : RemoteAsset :=
  {| asset_identifier := "id-1"; asset_path := "sub-01/func.nwb" |}.
Definition a2 : RemoteAsset :=
  {| asset_identifier := "id-2"; asset_path := "sub-01/anat.nwb" |}.
Definition a3 : RemoteAsset :=
  {| asset_identifier := "id-3"; asset_path := "sub-02/x.nwb" |}.

Definition assets : list RemoteAsset := [a1; a2; a3].

Definition ds1 : RemoteDandiset := {| dandiset_identifier := "000001" |}.
Definition ds2 : RemoteDandiset := {| dandiset_identifier := "000002" |}.

Definition api : string := "https://archive/api".

Definition not_found (what : string) : exn := Exn NotFoundError what.

Definition under (pre : string) (ds_id : string) : list RemoteAsset :=
  if String.eqb ds_id "000001" then
    filter (fun a => String.prefix pre (asset_path a)) assets
  else [].

Definition folder_url : string :=
  "https://archive/dandiset/000001/draft/files?path=sub-01".
Definition file_url : string :=
  "https://archive/dandiset/000001/draft/files?path=sub-01/func.nwb".
Definition dandiset_url : string := "https://archive/dandiset/000001".
Definition other_dandiset_url : string := "https://archive/dandiset/000002".
Definition missing_dandiset_url : string := "https://archive/dandiset/000009".
Definition versioned_url : string :=
  "https://archive/dandiset/000002/0.210831.2033".
Definition short_url : string := "https://short.example/abc".

Definition parsed (i : string) (v : option string) (whole : bool)
  (scope : string) : ParsedDandiURL :=
  {| url_api_url := api; url_dandiset_id := i; url_version_id := v;
     is_dandiset_url := whole; url_scope := scope |}.

Definition parse (u : string) : exn + ParsedDandiURL :=
  if String.eqb u folder_url then inr (parsed "000001" (Some "draft") false "sub-01")
  else if String.eqb u file_url then
    inr (parsed "000001" (Some "draft") false "sub-01/func.nwb")
  else if String.eqb u dandiset_url then inr (parsed "000001" None true "")
  else if String.eqb u other_dandiset_url then inr (parsed "000002" None true "")
  else if String.eqb u missing_dandiset_url then inr (parsed "000009" None true "")
  else if String.eqb u versioned_url then
    inr (parsed "000002" (Some "0.210831.2033") true "")
  else if String.eqb u short_url then inr (parsed "000001" None false "sub-09")
  else inl (Exn (OtherError "UnknownURLError") u).

Definition server_error : exn :=
  Exn (OtherError "HTTPError") "500 Server Error".

Definition env (answer : bool) : Env :=
  {| DRAFT := "draft";
     dandiset_metadata_file := "dandiset.yaml";
     dandi_authenticate := fun _ => None;
     get_dandiset := fun _ i _ _ =>
       if String.eqb i "000001" then inr ds1
       else if String.eqb i "000002" then inr ds2
       else inl (not_found ("No such Dandiset: " ++ i));
     get_asset_by_path := fun ds p =>
       match filter (fun a => String.eqb (asset_path a) p)
               (under "" (dandiset_identifier ds)) with
       | a :: _ => inr a
       | [] => inl (not_found ("No asset at path " ++ p))
       end;
     get_assets_with_path_prefix := fun ds p =>
       {| yielded := under p (dandiset_identifier ds); failure := None |};
     asset_delete := fun a =>
       if String.eqb (asset_identifier a) "id-2" then Some server_error
       else None;
     dandiset_delete := fun _ => None;
     parse_dandi_url := parse;
     get_assets := fun p _ =>
       {| yielded := under (url_scope p) (url_dandiset_id p); failure := None |};
     get_instance := fun n =>
       if String.eqb n "dandi" then inr {| instance_api := api |}
       else inl (Exn (OtherError "KeyError") n);
     is_url := String.prefix "https://";
     path_absolute := PyStr.rstrip_slash;
     path_parent := fun p => p;
     path_relative_to := fun p root =>
       if String.prefix root p then
         inr (String.substring (S (String.length root))
                (String.length p - S (String.length root)) p)
       else inl (Exn ValueError "path is not below the root");
     path_is_dir := fun p => String.eqb p "/data/ds/sub-02";
     Dandiset_find := fun p =>
       if String.prefix "/data/ds/" p then
         Some {| local_identifier := "000001"; local_path := "/data/ds" |}
       else None;
     click_confirm := fun _ => answer;
     py_repr := fun s =>
       match PyStr.repr_ascii s with
       | Some r => r
       | None => s
       end |}.

(** A request bound to Dandiset 000001 that holds one asset. *)
Definition bound_deleter (skip : bool) : Deleter :=
  {| client := Some {| client_api_url := api |};
     dandiset := Some ds1;
     deleting_dandiset := false;
     skip_missing := skip;
     remote_assets := [a1] |}.

End Demo.

(** ** dandi.cli.cmd_validate

    The bodies of the two commands and of [display_errors]; the click
    decorators around them are not part of the model.  The validators,
    [pluralize] and the logging handlers are collaborators. *)

(** A value found where a severity stands.  The code compares it with
    [Severity.ERROR] and [Severity.WARNING] and tests its truth, nothing
    else: any other value (another member, [None], a string) is told by
    its truth alone. *)
Inductive severity : Type :=
| ERROR
| WARNING
| OtherSeverity (truthy : bool).

Definition is_ERROR (s : severity) : bool :=
  match s with ERROR => true | _ => false end.

Definition is_WARNING (s : severity) : bool :=
  match s with WARNING => true | _ => false end.

(** [bool(s)]: the members of an enumeration are true. *)
Definition severity_truth (s : severity) : bool :=
  match s with
  | ERROR | WARNING => true
  | OtherSeverity b => b
  end.

(** What the command reads of a validation result.  [vr_path] and
    [vr_path_regex] are [None] when the attribute is false; the other
    attributes are given as they print. *)
Record ValidationResult : Type :=
  { vr_id : string;
    vr_severity : severity;
    vr_path : option string;
    vr_path_regex : option string;
    vr_dataset_path : string;
    vr_message : string }.

(** What [validate] yields: a (path, errors) pair per file, then how the
    iteration ends. *)
Record FileReports : Type :=
  { reported : list (string * list string); broke : option exn }.

Record ValidateEnv : Type :=
  { pluralize : nat -> string -> string;
    validate_bids_ :
      list string -> bool -> option string -> option string
      -> exn + list ValidationResult;
    validate_ :
      list string -> option string -> bool -> bool -> FileReports;
    root_handlers : list string }.

(** What the commands do to the outside, oldest first. *)
Inductive output : Type :=
| Secho (text : string) (bold : bool) (fg : string)
| AddFilter (handler : string)
| IgnoreBenignWarnings.

Definition console : Type := list output.

Definition emit (o : output) : M console unit :=
  modify (fun t => (t ++ [o])%list).

(** The colour names [click.style] knows. *)
Definition click_colors : list string :=
  ["black"; "red"; "green"; "yellow"; "blue"; "magenta"; "cyan"; "white";
   "bright_black"; "bright_red"; "bright_green"; "bright_yellow";
   "bright_blue"; "bright_magenta"; "bright_cyan"; "bright_white"; "reset"].

(** What [click.style] raises for any other name: the message holds the
    [repr] of the name, which is ASCII in every call made here. *)
Definition unknown_color (fg : string) : exn :=
  Exn (OtherError "TypeError")
    ("Unknown color "
       ++ match PyStr.repr_ascii fg with
          | Some r => r
          | None => fg
          end).

(** [click.secho(text, bold=bold, fg=fg)]: the text is styled first, so an
    unknown colour raises before anything is printed. *)
Definition secho (text : string) (bold : bool) (fg : string) : M console unit :=
  if existsb (String.eqb fg) click_colors then emit (Secho text bold fg)
  else raise (unknown_color fg).

(** [zip(a, b, c)]: as long as the shortest. *)
Fixpoint zip3 {A B C : Type} (a : list A) (b : list B) (c : list C)
  : list (A * B * C) :=
  match a, b, c with
  | x :: a', y :: b', z :: c' => (x, y, z) :: zip3 a' b' c'
  | _, _, _ => []
  end.

(** [d[k] = v] on a dict kept in insertion order. *)
Fixpoint dict_set {V : Type} (k : string) (v : V) (d : list (string * V))
  : list (string * V) :=
  match d with
  | [] => [(k, v)]
  | (k', v') :: d' =>
      if String.eqb k' k then (k, v) :: d' else (k', v') :: dict_set k v d'
  end.

Definition SystemExit_1 : exn := Exn (BaseExceptionOnly "SystemExit") "1".

(** [os.curdir]. *)
Definition curdir : string := ".".

Definition nonempty {A : Type} (l : list A) : bool :=
  match l with [] => false | _ :: _ => true end.

Section Validate_commands.

Variable V : ValidateEnv.

Definition display_errors
  (scope : string) (errors : list string) (severities : list severity)
  (messages : list string) : M console unit :=
  let fg :=
    if existsb is_ERROR severities then "red"
    else if existsb is_WARNING severities then "orange"
    else "blue" in
  let summary :=
    scope ++ ": " ++ pluralize V (List.length errors) "issue" ++ " detected." in
  secho summary false fg ;;;
  for_each (zip3 errors severities messages) (fun esm =>
    let '(error, severity, message) := esm in
    let fg :=
      match severity with
      | ERROR => "red"
      | WARNING => "green"
      | OtherSeverity _ => "blue"
      end in
    let error_message := "  [" ++ error ++ "] " ++ message in
    secho error_message false fg).

Definition validate_bids
  (paths : list string) (schema : option string) (report : bool)
  (report_path : option string) : M console unit :=
  match validate_bids_ V paths report report_path schema with
  | inl e => raise e
  | inr validator_result =>
      for_each validator_result (fun i =>
        if negb (severity_truth (vr_severity i)) then ret tt
        else
          let scope :=
            match vr_path i with
            | Some p => p
            | None =>
                match vr_path_regex i with
                | Some r => r
                | None => vr_dataset_path i
                end
            end in
          display_errors scope [vr_id i] [vr_severity i] [vr_message i]) ;;;
      let validation_errors :=
        filter (fun e => is_ERROR (vr_severity e)) validator_result in
      if nonempty validation_errors then raise SystemExit_1 else ret tt
  end.

(** The loop of [validate] over the reports: its state is the console. *)
Fixpoint validate_loop
  (view : string) (files : list (string * list string))
  (all_files_errors : list (string * list string)) (nfiles : nat)
  : M console (list (string * list string) * nat) :=
  match files with
  | [] => ret (all_files_errors, nfiles)
  | (path, errors) :: files' =>
      let nfiles := nfiles + 1 in
      (if String.eqb view "one-at-a-time" && nonempty errors then
         display_errors path
           (repeat "NWBError" (List.length errors))
           (repeat (OtherSeverity false) (List.length errors))
           errors
       else ret tt) ;;;
      validate_loop view files' (dict_set path errors all_files_errors) nfiles
  end.

Definition validate
  (paths : list string) (schema : option string)
  (devel_debug allow_any_path : bool) : M console unit :=
  for_each (root_handlers V) (fun h => emit (AddFilter h)) ;;;
  let paths := if nonempty paths then paths else [curdir] in
  emit IgnoreBenignWarnings ;;;
  let view := "one-at-a-time" in
  let reports := validate_ V paths schema devel_debug allow_any_path in
  res <- validate_loop view (reported reports) [] 0 ;;
  let '(all_files_errors, nfiles) := res in
  match broke reports with
  | Some e => raise e
  | None =>
      if String.eqb view "groupped" then raise (Exn NotImplementedError "TODO")
      else
        let files_with_errors :=
          map fst (filter (fun fe => nonempty (snd fe)) all_files_errors) in
        if nonempty files_with_errors then
          secho
            ("Summary: Validation errors in "
               ++ PyStr.str_of_nat (List.length files_with_errors)
               ++ " out of " ++ PyStr.str_of_nat nfiles ++ " files")
            true "red" ;;;
          raise SystemExit_1
        else
          secho
            ("Summary: No validation errors among "
               ++ PyStr.str_of_nat nfiles ++ " file(s)")
            true "green"
  end.

End Validate_commands.

(** ** Vocabulary of the properties *)

Definition identifiers (l : list RemoteAsset) : list string :=
  map asset_identifier l.

Definition unique_identifiers (d : Deleter) : Prop :=
  NoDup (identifiers (remote_assets d)).

(** The invariant of a request: no identifier twice, and nothing to delete
    unless a Dandiset is bound. *)
Definition well_formed (d : Deleter) : Prop :=
  unique_identifiers d /\ (Deleter_bool d = true -> dandiset d <> None).

Definition is_delete_call (ev : event) : bool :=
  match ev with
  | EvDeleteDandiset _ | EvDeleteAsset _ => true
  | _ => false
  end.

(** The delete requests sent to the server, in order. *)
Definition delete_calls (t : trace) : list event := filter is_delete_call t.

(** The status records printed, each with its path. *)
Definition records (t : trace) : list pydict :=
  flat_map (fun ev => match ev with EvPrint r => [r] | _ => [] end) t.

(** The rows handed to the table, in order. *)
Definition submitted_rows (t : trace) : list pyout_row :=
  flat_map (fun ev => match ev with EvTableRow r => [r] | _ => [] end) t.

(** What the table shows for a row once its generator has been run: each
    yielded update under the row's path. *)
Definition row_records (row : pyout_row) : list pydict :=
  flat_map (fun s =>
              match s with
              | Yield d => [("path", row_path row) :: d]
              | _ => []
              end) (row_status_message row).

(** The assets a row's generator calls [delete] on. *)
Definition row_calls (row : pyout_row) : list RemoteAsset :=
  flat_map (fun s => match s with DoDelete a => [a] | _ => [] end)
    (row_status_message row).

(** The exceptions that leave a row's generator. *)
Definition row_escapes (row : pyout_row) : list exn :=
  flat_map (fun s => match s with Propagate e => [e] | _ => [] end)
    (row_status_message row).

(** The assets whose [delete] was called, in order. *)
Definition deleted_assets (t : trace) : list RemoteAsset :=
  flat_map (fun ev => match ev with EvDeleteAsset a => [a] | _ => [] end) t.

Definition has_status (s : string) (r : pydict) : bool :=
  match dict_get "status" r with
  | Some s' => String.eqb s' s
  | None => false
  end.

Section Batch_vocabulary.

Variable E : Env.

Definition fails (a : RemoteAsset) : bool :=
  match asset_delete E a with Some _ => true | None => false end.

(** [asset.delete()] returns, or raises what [except Exception] catches. *)
Definition caught (a : RemoteAsset) : bool :=
  match asset_delete E a with
  | Some e => is_Exception e
  | None => true
  end.

(** What the debug mode shows of one asset whose deletion is [caught]. *)
Definition asset_events (a : RemoteAsset) : list event :=
  [EvPrint [("path", asset_path a); ("status", "Deleting")];
   EvDeleteAsset a;
   EvPrint (("path", asset_path a)
              :: match asset_delete E a with
                 | Some e => error_record e
                 | None => [("status", "Deleted")]
                 end)].

(** What it shows of one whose deletion raises something else. *)
Definition interrupted_events (a : RemoteAsset) : list event :=
  [EvPrint [("path", asset_path a); ("status", "Deleting")];
   EvDeleteAsset a].

(** The record a failed deletion ends with. *)
Definition error_row (a : RemoteAsset) : pydict :=
  ("path", asset_path a)
    :: match asset_delete E a with
       | Some e => error_record e
       | None => []
       end.

Definition deleted_row (a : RemoteAsset) : pydict :=
  [("path", asset_path a); ("status", "Deleted")].

End Batch_vocabulary.

(** What a later state of a request keeps of an earlier one: the policy,
    the assets already held (in place), a set whole-Dandiset flag, the
    client, and the Dandiset once both are bound. *)
Definition extends (d d' : Deleter) : Prop :=
  skip_missing d' = skip_missing d
  /\ (exists l, remote_assets d' = (remote_assets d ++ l)%list)
  /\ (deleting_dandiset d = true -> deleting_dandiset d' = true)
  /\ (forall c, client d = Some c -> client d' = Some c)
  /\ (forall c ds, client d = Some c -> dandiset d = Some ds ->
                   dandiset d' = Some ds).

(** The order [sorted] puts assets in. *)
Definition by_path (a b : RemoteAsset) : Prop :=
  String.leb (asset_path a) (asset_path b) = true.

(** The errors a path was last reported with. *)
Fixpoint last_report (p : string) (reports : list (string * list string))
  : option (list string) :=
  match reports with
  | [] => None
  | (q, errors) :: rest =>
      match last_report p rest with
      | Some later => Some later
      | None => if String.eqb q p then Some errors else None
      end
  end.

(** [all_files_errors[path] = errors]. *)
Definition record_report
  (acc : list (string * list string)) (fe : string * list string)
  : list (string * list string) :=
  dict_set (fst fe) (snd fe) acc.

(** The results that come before the first WARNING. *)
Fixpoint before_WARNING (results : list ValidationResult)
  : list ValidationResult :=
  match results with
  | [] => []
  | r :: rest =>
      if is_WARNING (vr_severity r) then [] else r :: before_WARNING rest
  end.

(** The line [display_errors] prints for one zipped triple. *)
Definition error_line (esm : string * severity * string) : output :=
  let '(error, sev, message) := esm in
  Secho ("  [" ++ error ++ "] " ++ message) false
    match sev with
    | ERROR => "red"
    | WARNING => "green"
    | OtherSeverity _ => "blue"
    end.

Section Validate_vocabulary.

Variable V : ValidateEnv.

(** What [validate_bids] shows of one result that is not a WARNING:
    nothing when its severity is false, else two lines, red for an ERROR
    and blue for any other severity. *)
Definition bids_lines (i : ValidationResult) : list output :=
  let scope :=
    match vr_path i, vr_path_regex i with
    | Some p, _ => p
    | None, Some r => r
    | None, None => vr_dataset_path i
    end in
  let lines (fg : string) :=
    [Secho (scope ++ ": " ++ pluralize V 1 "issue" ++ " detected.") false fg;
     Secho ("  [" ++ vr_id i ++ "] " ++ vr_message i) false fg] in
  match vr_severity i with
  | ERROR => lines "red"
  | OtherSeverity true => lines "blue"
  | OtherSeverity false => []
  | WARNING => []
  end.

(** What [validate] shows of one file. *)
Definition nwb_lines (fe : string * list string) : list output :=
  match snd fe with
  | [] => []
  | _ :: _ =>
      Secho (fst fe ++ ": "
               ++ pluralize V (List.length (snd fe)) "issue" ++ " detected.")
        false "blue"
        :: map (fun e => Secho ("  [NWBError] " ++ e) false "blue") (snd fe)
  end.

End Validate_vocabulary.

(** A validator for the examples. *)
Definition demo_validators : ValidateEnv :=
  {| pluralize := fun n w =>
       PyStr.str_of_nat n ++ " " ++ w ++ (if Nat.eqb n 1 then "" else "s");
     validate_bids_ := fun paths _ _ _ =>
       inr [ {| vr_id := "BIDS.NON_BIDS_PATH_PLACEHOLDER";
                vr_severity := ERROR;
                vr_path := Some "ds/sub-01/foo.txt";
                vr_path_regex := None;
                vr_dataset_path := "ds";
                vr_message := "File does not match any pattern" |};
             {| vr_id := "BIDS.MATCH";
                vr_severity := OtherSeverity false;
                vr_path := Some "ds/sub-01/anat.nii";
                vr_path_regex := None;
                vr_dataset_path := "ds";
                vr_message := "" |} ];
     validate_ := fun paths _ _ _ =>
       {| reported :=
            map (fun p => (p, if String.eqb p "bad.nwb"
                              then ["no subject"; "no session"] else []))
                paths;
          broke := None |};
     root_handlers := ["stderr"; "logfile"] |}.

(** An archive as [E] in which [asset.delete()] answers as [f] says. *)
Definition with_asset_delete (f : RemoteAsset -> option exn) (E : Env) : Env :=
  {| DRAFT := DRAFT E;
     dandiset_metadata_file := dandiset_metadata_file E;
     dandi_authenticate := dandi_authenticate E;
     get_dandiset := get_dandiset E;
     get_asset_by_path := get_asset_by_path E;
     get_assets_with_path_prefix := get_assets_with_path_prefix E;
     asset_delete := f;
     dandiset_delete := dandiset_delete E;
     parse_dandi_url := parse_dandi_url E;
     get_assets := get_assets E;
     get_instance := get_instance E;
     is_url := is_url E;
     path_absolute := path_absolute E;
     path_parent := path_parent E;
     path_relative_to := path_relative_to E;
     path_is_dir := path_is_dir E;
     Dandiset_find := Dandiset_find E;
     click_confirm := click_confirm E;
     py_repr := py_repr E |}.

Definition keyboard_interrupt : exn :=
  Exn (BaseExceptionOnly "KeyboardInterrupt") "".

(** The small archive, with the deletion of one asset interrupted from
    the keyboard. *)
Definition interrupting_env : Env :=
  with_asset_delete
    (fun a =>
       if String.eqb (asset_identifier a) "id-2" then Some keyboard_interrupt
       else None)
    (Demo.env false).

(** ** Proof automation *)

Ltac unfold_monad := unfold bind, get, modify, ret, raise in *; simpl in *.

(** Destructs the first [match] or [if] scrutinee of the goal. *)
Ltac case_step :=
  match goal with
  | |- context [match ?x with _ => _ end] =>
      lazymatch x with
      | context [match _ with _ => _ end] => fail
      | _ => let H := fresh "Hcase" in destruct x eqn:H; simpl in *
      end
  end.

(** * Properties *)

(** ** Endpoint equality *)

Lemma rstrip_slash_slashes (n : nat) :
  PyStr.rstrip_slash (PyStr.slashes n) = "".
Proof.
  induction n as [|n IH]; simpl; [reflexivity|].
  rewrite IH. reflexivity.
Qed.

Lemma rstrip_slash_decompose (s : string) :
  exists n, s = PyStr.rstrip_slash s ++ PyStr.slashes n.
Proof.
  induction s as [|c s IH]; simpl.
  - exists 0. reflexivity.
  - destruct IH as [n Hn].
    destruct (PyStr.rstrip_slash s) as [|c' r] eqn:Hr.
    + simpl in Hn. destruct (Ascii.eqb_spec c PyStr.slash) as [->|Hc].
      * exists (S n). simpl. now rewrite <- Hn.
      * exists n. simpl. now rewrite <- Hn.
    + exists n. simpl. simpl in Hn. now rewrite <- Hn.
Qed.

Lemma rstrip_slash_app_slashes (r : string) (n : nat) :
  PyStr.rstrip_slash (r ++ PyStr.slashes n) = PyStr.rstrip_slash r.
Proof.
  induction r as [|c r IH]; simpl.
  - apply rstrip_slash_slashes.
  - now rewrite IH.
Qed.

(** What [rstrip] leaves does not end with a slash. *)
Lemma rstrip_slash_no_trailing (s : string) :
  PyStr.endswith_slash (PyStr.rstrip_slash s) = false.
Proof.
  induction s as [|c s IH]; simpl; [reflexivity|].
  destruct (PyStr.rstrip_slash s) as [|c' r] eqn:Hr.
  - destruct (Ascii.eqb_spec c PyStr.slash) as [->|Hc]; simpl; [reflexivity|].
    now apply Ascii.eqb_neq.
  - exact IH.
Qed.

(** C3, as stated, fails: two trailing slashes against none compare equal,
    although removing one slash from each side leaves different strings. *)
Lemma is_same_url_strips_more_than_one :
  is_same_url "https://archive/api//" "https://archive/api" = true
  /\ is_same_url_one_slash "https://archive/api//" "https://archive/api" = false
  /\ strip_one_trailing_slash "https://archive/api//"
     <> strip_one_trailing_slash "https://archive/api".
Proof.
  repeat split; try reflexivity. simpl. discriminate.
Qed.

(** C3, amended: [is_same_url] holds exactly when the two URLs are the same
    string followed by any number of slashes on either side, that is, when
    they are equal once every trailing slash is removed. *)
Theorem is_same_url_iff_equal_up_to_trailing_slashes (u1 u2 : string) :
  is_same_url u1 u2 = true
  <-> exists r n1 n2,
        u1 = r ++ PyStr.slashes n1 /\ u2 = r ++ PyStr.slashes n2.
Proof.
  unfold is_same_url. rewrite String.eqb_eq. split.
  - intros H.
    destruct (rstrip_slash_decompose u1) as [n1 H1].
    destruct (rstrip_slash_decompose u2) as [n2 H2].
    exists (PyStr.rstrip_slash u1), n1, n2. split; [exact H1|].
    rewrite H. exact H2.
  - intros (r & n1 & n2 & -> & ->).
    now rewrite !rstrip_slash_app_slashes.
Qed.

(** ** What a registration leaves alone *)

Section Registration_facts.

Variable E : Env.

(** The binder touches neither the collection nor the two flags; when it
    answers [True] a Dandiset is bound, and a bound Dandiset stays bound. *)
Lemma set_dandiset_frame (a i : string) (d : Deleter) :
  remote_assets (snd (set_dandiset E a i d)) = remote_assets d
  /\ deleting_dandiset (snd (set_dandiset E a i d)) = deleting_dandiset d
  /\ skip_missing (snd (set_dandiset E a i d)) = skip_missing d
  /\ (fst (set_dandiset E a i d) = Ok true ->
      dandiset (snd (set_dandiset E a i d)) <> None)
  /\ (dandiset d <> None -> dandiset (snd (set_dandiset E a i d)) <> None).
Proof.
  unfold set_dandiset. unfold_monad.
  repeat case_step; simpl; repeat split; intros; congruence.
Qed.

Lemma same_identifier_In (asset : RemoteAsset) (l : list RemoteAsset) :
  existsb (same_identifier asset) l = true
  <-> In (asset_identifier asset) (identifiers l).
Proof.
  unfold identifiers. rewrite existsb_exists, in_map_iff.
  split; intros [a [H1 H2]]; exists a.
  - split; [|exact H1]. now apply String.eqb_eq.
  - split; [exact H2|]. now apply String.eqb_eq.
Qed.

Lemma add_asset_run (asset : RemoteAsset) (d : Deleter) :
  add_asset asset d
  = (Ok tt,
     if existsb (same_identifier asset) (remote_assets d) then d
     else set_remote_assets (remote_assets d ++ [asset]) d).
Proof.
  unfold add_asset. unfold_monad.
  now destruct (existsb (same_identifier asset) (remote_assets d)).
Qed.

Lemma NoDup_snoc (x : string) (l : list string) :
  NoDup l -> ~ In x l -> NoDup (l ++ [x]).
Proof.
  intros Hl Hx. apply NoDup_rev in Hl.
  rewrite <- (rev_involutive (l ++ [x])). apply NoDup_rev.
  rewrite rev_app_distr. simpl. constructor; [|exact Hl].
  now rewrite <- in_rev.
Qed.

Lemma add_asset_unique (asset : RemoteAsset) (d : Deleter) :
  unique_identifiers d -> unique_identifiers (snd (add_asset asset d)).
Proof.
  unfold unique_identifiers. intros Hd. rewrite add_asset_run. simpl.
  destruct (existsb (same_identifier asset) (remote_assets d)) eqn:Hex;
    [exact Hd|].
  simpl. unfold identifiers. rewrite map_app. simpl.
  apply NoDup_snoc; [exact Hd|].
  intros Hin. apply same_identifier_In in Hin. congruence.
Qed.

(** A loop of [add_asset] never raises; it changes the collection only,
    keeps it duplicate-free, and leaves it non-empty after one round. *)
Lemma for_each_add_asset (l : list RemoteAsset) (d : Deleter) :
  exists d',
    for_each l add_asset d = (Ok tt, d')
    /\ client d' = client d /\ dandiset d' = dandiset d
    /\ deleting_dandiset d' = deleting_dandiset d
    /\ skip_missing d' = skip_missing d
    /\ (unique_identifiers d -> unique_identifiers d')
    /\ (l = [] -> d' = d)
    /\ (l <> [] -> remote_assets d' <> []).
Proof.
  revert d. induction l as [|a l IH]; intros d.
  - exists d. simpl. unfold ret. repeat split; congruence.
  - simpl. unfold bind. rewrite add_asset_run.
    set (d1 := if existsb _ _ then d else _).
    destruct (IH d1) as (d' & Hrun & Hc & Hd & Hdd & Hs & Hu & Hnil & Hne).
    assert (Hd1 : client d1 = client d /\ dandiset d1 = dandiset d
                  /\ deleting_dandiset d1 = deleting_dandiset d
                  /\ skip_missing d1 = skip_missing d
                  /\ remote_assets d1 <> []).
    { subst d1.
      destruct (existsb (same_identifier a) (remote_assets d)) eqn:Hex; simpl.
      - repeat split. intros Hnil'. rewrite Hnil' in Hex. discriminate.
      - repeat split. now destruct (remote_assets d). }
    destruct Hd1 as (Hc1 & Hds1 & Hdd1 & Hs1 & Hne1).
    exists d'. rewrite Hrun. repeat split; try congruence.
    + intros Hud. apply Hu. subst d1.
      pose proof (add_asset_unique a d Hud) as H.
      now rewrite add_asset_run in H.
    + intros _. destruct l as [|b l].
      * now rewrite (Hnil eq_refl).
      * apply Hne. discriminate.
Qed.

Lemma add_all_assets_frame (it : AssetIter) (missing : exn) (d : Deleter) :
  client (snd (add_all_assets it missing d)) = client d
  /\ dandiset (snd (add_all_assets it missing d)) = dandiset d
  /\ deleting_dandiset (snd (add_all_assets it missing d)) = deleting_dandiset d
  /\ skip_missing (snd (add_all_assets it missing d)) = skip_missing d
  /\ (unique_identifiers d ->
      unique_identifiers (snd (add_all_assets it missing d))).
Proof.
  unfold add_all_assets.
  destruct (for_each_add_asset (yielded it) d)
    as (d' & Hrun & Hc & Hd & Hdd & Hs & Hu & _).
  unfold bind, get, ret, raise. rewrite Hrun.
  repeat case_step; simpl; repeat split; auto.
Qed.

Lemma new_Deleter_well_formed (b : bool) : well_formed (new_Deleter b).
Proof.
  split; [constructor | discriminate].
Qed.

Lemma set_dandiset_well_formed (a i : string) (d : Deleter) :
  well_formed d -> well_formed (snd (set_dandiset E a i d)).
Proof.
  intros [Hu Hb].
  destruct (set_dandiset_frame a i d) as (Hr & Hdd & _ & _ & Hkeep).
  unfold well_formed, unique_identifiers, Deleter_bool in *.
  rewrite Hr, Hdd. auto.
Qed.

(** Every registration starts the same way: bind, and stop when the binder
    answers [False]. *)
Lemma bound_then (a i : string) (k : M Deleter unit) (d : Deleter) :
  (bound <- set_dandiset E a i ;; if negb bound then ret tt else k) d
  = match set_dandiset E a i d with
    | (Ok true, d1) => k d1
    | (Ok false, d1) => (Ok tt, d1)
    | (Raise e, d1) => (Raise e, d1)
    end.
Proof.
  unfold bind. destruct (set_dandiset E a i d) as [[[|]|e] d1]; reflexivity.
Qed.

Lemma bound_then_well_formed (a i : string) (k : M Deleter unit) :
  (forall d1, well_formed d1 -> dandiset d1 <> None -> well_formed (snd (k d1))) ->
  forall d, well_formed d ->
    well_formed
      (snd ((bound <- set_dandiset E a i ;; if negb bound then ret tt else k) d)).
Proof.
  intros Hk d Hd. rewrite bound_then.
  pose proof (set_dandiset_well_formed a i d Hd) as Hwf.
  destruct (set_dandiset_frame a i d) as (_ & _ & _ & Hbound & _).
  destruct (set_dandiset E a i d) as [[[|]|e] d1]; simpl in *; auto.
Qed.

Lemma add_asset_well_formed (asset : RemoteAsset) (d : Deleter) :
  well_formed d -> dandiset d <> None -> well_formed (snd (add_asset asset d)).
Proof.
  intros [Hu _] Hds. split; [now apply add_asset_unique|].
  intros _. rewrite add_asset_run. simpl.
  now destruct (existsb (same_identifier asset) (remote_assets d)).
Qed.

Lemma add_all_assets_well_formed (it : AssetIter) (missing : exn) (d : Deleter) :
  well_formed d -> dandiset d <> None ->
  well_formed (snd (add_all_assets it missing d)).
Proof.
  intros [Hu _] Hds.
  destruct (add_all_assets_frame it missing d) as (_ & Hd & _ & _ & Hu').
  split; [auto|]. intros _. now rewrite Hd.
Qed.

Lemma register_dandiset_well_formed (a i : string) (d : Deleter) :
  well_formed d -> well_formed (snd (register_dandiset E a i d)).
Proof.
  unfold register_dandiset. apply bound_then_well_formed.
  intros d1 [Hu _] Hds. split; [exact Hu | intros _; exact Hds].
Qed.

Lemma register_asset_well_formed (a i v p : string) (d : Deleter) :
  well_formed d -> well_formed (snd (register_asset E a i v p d)).
Proof.
  unfold register_asset. apply bound_then_well_formed.
  intros d1 Hwf Hds. unfold bind, get, ret, raise.
  repeat case_step; auto.
  apply add_asset_well_formed; [exact Hwf | congruence].
Qed.

Lemma register_asset_folder_well_formed (a i v p : string) (d : Deleter) :
  well_formed d -> well_formed (snd (register_asset_folder E a i v p d)).
Proof.
  unfold register_asset_folder. apply bound_then_well_formed.
  intros d1 Hwf Hds. unfold bind, get, raise.
  case_step; auto.
  apply add_all_assets_well_formed; [exact Hwf | congruence].
Qed.

Lemma register_assets_url_well_formed
  (u : string) (p : ParsedDandiURL) (d : Deleter) :
  well_formed d -> well_formed (snd (register_assets_url E u p d)).
Proof.
  unfold register_assets_url. apply bound_then_well_formed.
  intros d1 Hwf Hds. unfold bind, get.
  now apply add_all_assets_well_formed.
Qed.

Lemma register_url_well_formed (u : string) (d : Deleter) :
  well_formed d -> well_formed (snd (register_url E u d)).
Proof.
  intros Hwf. unfold register_url.
  destruct (parse_dandi_url E u) as [e|p]; [exact Hwf|].
  destruct (is_dandiset_url p).
  - destruct (url_version_id p); [exact Hwf|].
    now apply register_dandiset_well_formed.
  - now apply register_assets_url_well_formed.
Qed.

Lemma register_local_path_equivalent_well_formed (n f : string) (d : Deleter) :
  well_formed d -> well_formed (snd (register_local_path_equivalent E n f d)).
Proof.
  unfold register_local_path_equivalent.
  destruct (get_instance E n) as [e|inst]; [auto|].
  destruct (find_local_asset E f) as [e|[i p]]; [auto|].
  apply bound_then_well_formed. intros d1 Hwf _.
  destruct (PyStr.endswith_slash p).
  - now apply register_asset_folder_well_formed.
  - now apply register_asset_well_formed.
Qed.

Lemma run_registration_well_formed (op : registration) (d : Deleter) :
  well_formed d -> well_formed (snd (run_registration E op d)).
Proof.
  destruct op; simpl.
  - apply register_dandiset_well_formed.
  - apply register_asset_well_formed.
  - apply register_asset_folder_well_formed.
  - apply register_assets_url_well_formed.
  - apply register_url_well_formed.
  - apply register_local_path_equivalent_well_formed.
Qed.

End Registration_facts.

(** ** Every registration goes through the binder *)

Section Binder_first.

Variable E : Env.

(** A [register_url] call for a whole Dandiset at an explicit version is
    refused before the binder is consulted. *)
Lemma versioned_dandiset_request_refused (op : registration) (d : Deleter) :
  versioned_dandiset_request E op = true ->
  run_registration E op d = (Raise version_deletion_unsupported, d).
Proof.
  destruct op; simpl; try discriminate.
  unfold register_url.
  destruct (parse_dandi_url E url) as [e|p]; [discriminate|].
  destruct (is_dandiset_url p); [|discriminate].
  destruct (url_version_id p); [reflexivity|discriminate].
Qed.

(** Any other registration stops where the binder stops: with the binder's
    exception, or silently when the binder answers [False]. *)
Lemma binder_decides (op : registration) (a i : string) (d : Deleter) :
  target E op = Some (a, i) ->
  versioned_dandiset_request E op = false ->
  match set_dandiset E a i d with
  | (Raise e, d1) => run_registration E op d = (Raise e, d1)
  | (Ok false, d1) => run_registration E op d = (Ok tt, d1)
  | (Ok true, _) => True
  end.
Proof.
  intros Ht Hv.
  destruct op; simpl in *.
  - injection Ht as <- <-. unfold register_dandiset. rewrite bound_then.
    now destruct (set_dandiset E _ _ d) as [[[|]|e] d1].
  - injection Ht as <- <-. unfold register_asset. rewrite bound_then.
    now destruct (set_dandiset E _ _ d) as [[[|]|e] d1].
  - injection Ht as <- <-. unfold register_asset_folder. rewrite bound_then.
    now destruct (set_dandiset E _ _ d) as [[[|]|e] d1].
  - injection Ht as <- <-. unfold register_assets_url. rewrite bound_then.
    now destruct (set_dandiset E _ _ d) as [[[|]|e] d1].
  - unfold register_url.
    destruct (parse_dandi_url E url) as [e|p]; [discriminate|].
    injection Ht as <- <-.
    destruct (is_dandiset_url p).
    + destruct (url_version_id p); [discriminate|].
      unfold register_dandiset. rewrite bound_then.
      now destruct (set_dandiset E _ _ d) as [[[|]|e] d1].
    + unfold register_assets_url. rewrite bound_then.
      destruct (url_version_id p); simpl;
        now destruct (set_dandiset E _ _ d) as [[[|]|e] d1].
  - unfold register_local_path_equivalent.
    destruct (get_instance E instance_name) as [e|inst]; [discriminate|].
    destruct (find_local_asset E filepath) as [e|[i' p]]; [discriminate|].
    injection Ht as <- <-. rewrite bound_then.
    now destruct (set_dandiset E _ _ d) as [[[|]|e] d1].
Qed.

(** The binder on a request bound to another Dandiset of the same
    endpoint. *)
Lemma set_dandiset_other_dandiset
  (d : Deleter) (c : DandiAPIClient) (ds : RemoteDandiset) (a i : string) :
  client d = Some c -> dandiset d = Some ds ->
  is_same_url (client_api_url c) a = true ->
  dandiset_identifier ds <> i ->
  set_dandiset E a i d = (Raise mixing_dandisets, d).
Proof.
  intros Hc Hds Hsame Hneq. unfold set_dandiset. unfold_monad.
  rewrite Hc, Hsame, Hds. simpl.
  apply String.eqb_neq in Hneq. now rewrite Hneq.
Qed.

(** The binder on a request bound to the same Dandiset answers [True] and
    changes nothing. *)
Lemma set_dandiset_same_dandiset
  (d : Deleter) (c : DandiAPIClient) (ds : RemoteDandiset) (a : string) :
  client d = Some c -> dandiset d = Some ds ->
  is_same_url (client_api_url c) a = true ->
  set_dandiset E a (dandiset_identifier ds) d = (Ok true, d).
Proof.
  intros Hc Hds Hsame. unfold set_dandiset. unfold_monad.
  rewrite Hc, Hsame, Hds. simpl. now rewrite String.eqb_refl.
Qed.

(** The binder on a request whose client is set while no Dandiset is. *)
Lemma set_dandiset_half_bound
  (d : Deleter) (c : DandiAPIClient) (a i : string) :
  client d = Some c -> dandiset d = None ->
  is_same_url (client_api_url c) a = true ->
  set_dandiset E a i d = (Raise (none_has_no "identifier"), d).
Proof.
  intros Hc Hds Hsame. unfold set_dandiset. unfold_monad.
  now rewrite Hc, Hsame, Hds.
Qed.

End Binder_first.

(** ** Deduplication *)

Lemma run_registrations_well_formed
  (E : Env) (ops : list registration) (d : Deleter) :
  well_formed d -> well_formed (run_registrations E ops d).
Proof.
  revert d. induction ops as [|op ops IH]; intros d Hd; simpl; [exact Hd|].
  apply IH. now apply run_registration_well_formed.
Qed.

(** C1: whatever registrations are made on a new request, in whatever
    order and however often, also when some of them raise, no identifier
    occurs twice in [remote_assets]; and adding an asset whose identifier
    is already there changes nothing. *)
Theorem remote_assets_hold_no_identifier_twice
  (E : Env) (ops : list registration) (skip : bool) :
  NoDup (identifiers
           (remote_assets (run_registrations E ops (new_Deleter skip))))
  /\ forall (asset : RemoteAsset) (d : Deleter),
       In (asset_identifier asset) (identifiers (remote_assets d)) ->
       add_asset asset d = (Ok tt, d).
Proof.
  split.
  - apply (run_registrations_well_formed E ops (new_Deleter skip)).
    apply new_Deleter_well_formed.
  - intros asset d Hin. rewrite add_asset_run.
    apply same_identifier_In in Hin. now rewrite Hin.
Qed.

Lemma remote_assets_hold_no_identifier_twice_witness :
  NoDup (identifiers
           (remote_assets
              (run_registrations (Demo.env false)
                 [RegisterUrl Demo.folder_url; RegisterUrl Demo.file_url;
                  RegisterAsset Demo.api "000001" "draft" "sub-01/anat.nwb"]
                 (new_Deleter false))))
  /\ add_asset Demo.a1 (Demo.bound_deleter false)
     = (Ok tt, Demo.bound_deleter false).
Proof.
  split.
  - apply (remote_assets_hold_no_identifier_twice (Demo.env false)).
  - apply (remote_assets_hold_no_identifier_twice (Demo.env false) [] false).
    simpl. left. reflexivity.
Defined.

(** ** Mixing Dandisets *)

(** C2, as stated, fails: on a request bound to Dandiset 000001,
    [register_url] of a URL for Dandiset 000002 at an explicit version
    names another Dandiset of the same endpoint, yet what it raises is
    [NotImplementedError], not the mixing [ValueError]. *)
Lemma versioned_url_of_other_dandiset_is_no_mixing_error :
  let E := Demo.env false in
  let d := Demo.bound_deleter false in
  let op := RegisterUrl Demo.versioned_url in
  client d = Some {| client_api_url := Demo.api |}
  /\ dandiset d = Some Demo.ds1
  /\ target E op = Some (Demo.api, "000002")
  /\ is_same_url Demo.api Demo.api = true
  /\ dandiset_identifier Demo.ds1 <> "000002"
  /\ fst (run_registration E op d) = Raise version_deletion_unsupported
  /\ exn_cls version_deletion_unsupported <> ValueError
  /\ run_registration E op d <> (Raise mixing_dandisets, d).
Proof.
  repeat split; try reflexivity; simpl; discriminate.
Qed.

(** C2, amended: on a request bound to a Dandiset, a registration call
    that names another Dandiset of the same endpoint raises the mixing
    [ValueError], except [register_url] of a whole-Dandiset URL with an
    explicit version, which raises [NotImplementedError]; either way the
    request is left exactly as it was. *)
Theorem other_dandiset_is_refused_and_state_kept
  (E : Env) (d : Deleter) (c : DandiAPIClient) (ds : RemoteDandiset)
  (op : registration) (api_url dandiset_id : string) :
  client d = Some c ->
  dandiset d = Some ds ->
  target E op = Some (api_url, dandiset_id) ->
  is_same_url (client_api_url c) api_url = true ->
  dandiset_identifier ds <> dandiset_id ->
  run_registration E op d
  = (Raise (if versioned_dandiset_request E op
            then version_deletion_unsupported
            else mixing_dandisets), d)
  /\ exn_cls mixing_dandisets = ValueError
  /\ exn_cls version_deletion_unsupported = NotImplementedError.
Proof.
  intros Hc Hds Ht Hsame Hneq. split; [|split; reflexivity].
  destruct (versioned_dandiset_request E op) eqn:Hv.
  - now apply versioned_dandiset_request_refused.
  - pose proof (binder_decides E op api_url dandiset_id d Ht Hv) as H.
    now rewrite (set_dandiset_other_dandiset E d c ds _ _ Hc Hds Hsame Hneq) in H.
Qed.

Lemma other_dandiset_is_refused_and_state_kept_witness :
  run_registration (Demo.env false)
    (RegisterUrl Demo.other_dandiset_url) (Demo.bound_deleter false)
  = (Raise mixing_dandisets, Demo.bound_deleter false).
Proof.
  apply (other_dandiset_is_refused_and_state_kept (Demo.env false)
           (Demo.bound_deleter false) {| client_api_url := Demo.api |}
           Demo.ds1 (RegisterUrl Demo.other_dandiset_url)
           Demo.api "000002");
    try reflexivity.
  simpl. discriminate.
Defined.

(** ** A skipped missing Dandiset leaves the request half bound *)

(** C9, as stated, fails: after a skipped missing Dandiset, [register_url]
    of a whole-Dandiset URL with an explicit version, on the same
    endpoint, raises [NotImplementedError] and never reaches the
    comparison that would raise [AttributeError]. *)
Lemma versioned_url_after_skipped_dandiset_is_no_attribute_error :
  let E := Demo.env false in
  let d1 := snd (set_dandiset E Demo.api "000009" (new_Deleter true)) in
  let op := RegisterUrl Demo.versioned_url in
  set_dandiset E Demo.api "000009" (new_Deleter true) = (Ok false, d1)
  /\ client d1 = Some {| client_api_url := Demo.api |}
  /\ dandiset d1 = None
  /\ target E op = Some (Demo.api, "000002")
  /\ is_same_url Demo.api Demo.api = true
  /\ fst (run_registration E op d1) = Raise version_deletion_unsupported
  /\ exn_cls version_deletion_unsupported <> AttributeError
  /\ run_registration E op d1 <> (Raise (none_has_no "identifier"), d1).
Proof.
  repeat split; try reflexivity; simpl; discriminate.
Qed.

(** C9, amended: when the first binding of a request meets a missing
    Dandiset under skip-missing and answers [False], the registration that
    asked for it returns in silence, the client is set and no Dandiset is;
    every later registration on the same endpoint then
    raises [AttributeError] at [self.dandiset.identifier] and changes
    nothing, except [register_url] of a whole-Dandiset URL with an explicit
    version, which raises [NotImplementedError] as always. *)
Theorem skipped_dandiset_leaves_client_without_dandiset
  (E : Env) (d d1 : Deleter) (api_url dandiset_id : string) :
  client d = None ->
  dandiset d = None ->
  set_dandiset E api_url dandiset_id d = (Ok false, d1) ->
  skip_missing d = true
  /\ d1 = set_client {| client_api_url := PyStr.rstrip_slash api_url |} d
  /\ dandiset d1 = None
  /\ (forall op : registration,
        target E op = Some (api_url, dandiset_id) ->
        versioned_dandiset_request E op = false ->
        run_registration E op d = (Ok tt, d1))
  /\ forall (op : registration) (api_url' dandiset_id' : string),
       target E op = Some (api_url', dandiset_id') ->
       is_same_url (PyStr.rstrip_slash api_url) api_url' = true ->
       run_registration E op d1
       = (Raise (if versioned_dandiset_request E op
                 then version_deletion_unsupported
                 else none_has_no "identifier"), d1).
Proof.
  intros Hc Hds Hrun.
  assert (Hd1 : skip_missing d = true
                /\ d1 = set_client
                          {| client_api_url := PyStr.rstrip_slash api_url |} d).
  { revert Hrun. unfold set_dandiset. unfold_monad. rewrite Hc.
    repeat case_step; intros H; inversion H; auto. }
  destruct Hd1 as [Hskip ->].
  split; [exact Hskip|]. split; [reflexivity|]. split; [exact Hds|]. split.
  { intros op Ht Hv.
    pose proof (binder_decides E op api_url dandiset_id d Ht Hv) as H.
    now rewrite Hrun in H. }
  intros op a' i' Ht Hsame.
  destruct (versioned_dandiset_request E op) eqn:Hv.
  - now apply versioned_dandiset_request_refused.
  - set (c := {| client_api_url := PyStr.rstrip_slash api_url |}) in *.
    pose proof (binder_decides E op a' i' (set_client c d) Ht Hv) as H.
    rewrite (set_dandiset_half_bound E (set_client c d) c a' i'
               eq_refl Hds Hsame) in H.
    exact H.
Qed.

Lemma skipped_dandiset_leaves_client_without_dandiset_witness :
  run_registration (Demo.env false)
    (RegisterAsset Demo.api "000001" "draft" "sub-01/func.nwb")
    (set_client {| client_api_url := Demo.api |} (new_Deleter true))
  = (Raise (none_has_no "identifier"),
     set_client {| client_api_url := Demo.api |} (new_Deleter true)).
Proof.
  destruct (skipped_dandiset_leaves_client_without_dandiset (Demo.env false)
              (new_Deleter true)
              (set_client {| client_api_url := Demo.api |} (new_Deleter true))
              Demo.api "000009" eq_refl eq_refl eq_refl)
    as (_ & _ & _ & _ & Hlater).
  apply (Hlater (RegisterAsset Demo.api "000001" "draft" "sub-01/func.nwb")
           Demo.api "000001"); reflexivity.
Defined.

(** ** Versioned Dandiset URLs *)

(** C7: [register_url] of a whole-Dandiset URL with an explicit version
    raises [NotImplementedError] and leaves the request untouched, whatever
    [skip_missing] is; without a version the call is [register_dandiset],
    which sets [deleting_dandiset] once the binder answers [True]. *)
Theorem register_url_refuses_versioned_dandiset
  (E : Env) (url : string) (p : ParsedDandiURL) :
  parse_dandi_url E url = inr p ->
  is_dandiset_url p = true ->
  (forall (v : string) (d : Deleter),
     url_version_id p = Some v ->
     register_url E url d = (Raise version_deletion_unsupported, d)
     /\ exn_cls version_deletion_unsupported = NotImplementedError)
  /\ (url_version_id p = None ->
      forall d : Deleter,
        register_url E url d
        = register_dandiset E (url_api_url p) (url_dandiset_id p) d
        /\ forall d1 : Deleter,
             set_dandiset E (url_api_url p) (url_dandiset_id p) d
             = (Ok true, d1) ->
             register_url E url d = (Ok tt, set_deleting_dandiset true d1)).
Proof.
  intros Hparse Hwhole. unfold register_url. rewrite Hparse, Hwhole. split.
  - intros v d ->. split; reflexivity.
  - intros -> d. split; [reflexivity|].
    intros d1 Hset. unfold register_dandiset. rewrite bound_then, Hset.
    reflexivity.
Qed.

Lemma register_url_refuses_versioned_dandiset_witness :
  (register_url (Demo.env false) Demo.versioned_url (new_Deleter true)
   = (Raise version_deletion_unsupported, new_Deleter true)
   /\ register_url (Demo.env false) Demo.versioned_url (new_Deleter false)
      = (Raise version_deletion_unsupported, new_Deleter false))
  /\ deleting_dandiset
       (snd (register_url (Demo.env false) Demo.dandiset_url
               (new_Deleter false))) = true.
Proof.
  split.
  - destruct (register_url_refuses_versioned_dandiset (Demo.env false)
                Demo.versioned_url
                (Demo.parsed "000002" (Some "0.210831.2033") true "")
                eq_refl eq_refl) as [Hv _].
    split.
    + apply (Hv "0.210831.2033" (new_Deleter true) eq_refl).
    + apply (Hv "0.210831.2033" (new_Deleter false) eq_refl).
  - destruct (register_url_refuses_versioned_dandiset (Demo.env false)
                Demo.dandiset_url (Demo.parsed "000001" None true "")
                eq_refl eq_refl) as [_ Hn].
    destruct (Hn eq_refl (new_Deleter false)) as [_ Hset].
    rewrite (Hset _ eq_refl). reflexivity.
Defined.

(** ** The version argument *)

(** C10: [register_asset] and [register_asset_folder] do not look at their
    [version_id] argument: two calls that differ in it alone return the
    same result and leave the same request.  The Dandiset they look assets
    up in is the one the binder fetched, at the draft version. *)
Theorem version_id_is_ignored
  (E : Env) (api_url dandiset_id v1 v2 path : string) (d : Deleter) :
  register_asset E api_url dandiset_id v1 path d
  = register_asset E api_url dandiset_id v2 path d
  /\ register_asset_folder E api_url dandiset_id v1 path d
     = register_asset_folder E api_url dandiset_id v2 path d
  /\ forall skip : bool,
       let c := {| client_api_url := PyStr.rstrip_slash api_url |} in
       dandiset (snd (set_dandiset E api_url dandiset_id (new_Deleter skip)))
       = match dandi_authenticate E c with
         | Some _ => None
         | None =>
             match get_dandiset E c dandiset_id (DRAFT E) false with
             | inr ds => Some ds
             | inl _ => None
             end
         end.
Proof.
  repeat split. intros skip c. unfold set_dandiset. unfold_monad.
  fold c. repeat case_step; reflexivity.
Qed.

(** ** Missing targets *)

Lemma prefix_append (n s : string) : String.prefix n (n ++ s) = true.
Proof.
  induction n as [|c n IH]; simpl.
  - now destruct s.
  - destruct (ascii_dec c c) as [_|Hc]; [exact IH | now elim Hc].
Qed.

Lemma prefix_self (n : string) : String.prefix n n = true.
Proof.
  induction n as [|c n IH]; simpl; [reflexivity|].
  destruct (ascii_dec c c) as [_|Hc]; [exact IH | now elim Hc].
Qed.

Lemma contains_unfold (n s : string) :
  PyStr.contains n s
  = String.prefix n s
    || match s with
       | EmptyString => false
       | String _ s' => PyStr.contains n s'
       end.
Proof. now destruct s. Qed.

Lemma contains_here (n post : string) : PyStr.contains n (n ++ post) = true.
Proof. rewrite contains_unfold, prefix_append. reflexivity. Qed.

Lemma contains_self (n : string) : PyStr.contains n n = true.
Proof. rewrite contains_unfold, prefix_self. reflexivity. Qed.

Lemma contains_skip (pre n s : string) :
  PyStr.contains n s = true -> PyStr.contains n (pre ++ s) = true.
Proof.
  intros H. induction pre as [|c pre IH]; simpl; [exact H|].
  rewrite IH. apply orb_true_r.
Qed.

(** C4, as stated, fails for URLs: the message raised for a URL that
    resolves to no asset holds the URL as it was typed and nothing else,
    so a URL that does not spell the Dandiset id leaves it unnamed. *)
Lemma url_not_found_message_omits_dandiset :
  let E := Demo.env false in
  let d := Demo.bound_deleter false in
  skip_missing d = false
  /\ dandiset d = Some Demo.ds1
  /\ target E (RegisterUrl Demo.short_url) = Some (Demo.api, "000001")
  /\ yielded (get_assets E (Demo.parsed "000001" (Some "draft") false "sub-09")
                (client d)) = []
  /\ register_url E Demo.short_url d
     = (Raise (Exn NotFoundError
                 "No assets found for https://short.example/abc"), d)
  /\ PyStr.contains "000001"
       "No assets found for https://short.example/abc" = false.
Proof.
  repeat split; reflexivity.
Qed.

(** C4, amended: on a request bound to a Dandiset, with skip-missing off,
    a path that does not exist and a prefix that matches nothing raise
    [NotFoundError] with a message that holds the [repr] of the path
    (Python's own, [py_repr]) and the Dandiset id; a URL that resolves to
    no asset raises
    [NotFoundError] with the message "No assets found for" followed by
    the URL, which holds the URL only.  The request is left as it was. *)
Theorem missing_target_raises_NotFoundError
  (E : Env) (d : Deleter) (c : DandiAPIClient) (ds : RemoteDandiset)
  (api_url : string) :
  skip_missing d = false ->
  client d = Some c ->
  dandiset d = Some ds ->
  is_same_url (client_api_url c) api_url = true ->
  let dandiset_id := dandiset_identifier ds in
  let nothing := {| yielded := []; failure := None |} in
  (forall (version_id asset_path : string) (e : exn),
     get_asset_by_path E ds asset_path = inl e ->
     is_NotFoundError e = true ->
     register_asset E api_url dandiset_id version_id asset_path d
     = (Raise (asset_not_found E asset_path dandiset_id), d))
  /\ (forall version_id folder_path : string,
        get_assets_with_path_prefix E ds folder_path = nothing ->
        register_asset_folder E api_url dandiset_id version_id folder_path d
        = (Raise (folder_not_found E folder_path dandiset_id), d))
  /\ (forall (url : string) (p : ParsedDandiURL),
        url_api_url p = api_url ->
        url_dandiset_id p = dandiset_id ->
        get_assets E p (Some c) = nothing ->
        register_assets_url E url p d = (Raise (url_not_found url), d))
  /\ (forall (url : string) (p : ParsedDandiURL),
        parse_dandi_url E url = inr p ->
        is_dandiset_url p = false ->
        url_api_url p = api_url ->
        url_dandiset_id p = dandiset_id ->
        get_assets E
          match url_version_id p with
          | None => with_version (DRAFT E) p
          | Some _ => p
          end (Some c) = nothing ->
        register_url E url d = (Raise (url_not_found url), d))
  /\ (forall target : string,
        exn_cls (asset_not_found E target dandiset_id) = NotFoundError
        /\ PyStr.contains (py_repr E target)
             (exn_msg (asset_not_found E target dandiset_id)) = true
        /\ PyStr.contains dandiset_id
             (exn_msg (asset_not_found E target dandiset_id)) = true
        /\ exn_cls (folder_not_found E target dandiset_id) = NotFoundError
        /\ PyStr.contains (py_repr E target)
             (exn_msg (folder_not_found E target dandiset_id)) = true
        /\ PyStr.contains dandiset_id
             (exn_msg (folder_not_found E target dandiset_id)) = true
        /\ exn_cls (url_not_found target) = NotFoundError
        /\ exn_msg (url_not_found target) = "No assets found for " ++ target
        /\ PyStr.contains target (exn_msg (url_not_found target)) = true).
Proof.
  intros Hskip Hc Hds Hsame dandiset_id nothing.
  pose proof (set_dandiset_same_dandiset E d c ds api_url Hc Hds Hsame) as Hset.
  fold dandiset_id in Hset.
  assert (Hurl : forall url p,
             url_api_url p = api_url -> url_dandiset_id p = dandiset_id ->
             get_assets E p (Some c) = nothing ->
             register_assets_url E url p d = (Raise (url_not_found url), d)).
  { intros url p Ha Hi Hget. unfold register_assets_url.
    rewrite bound_then, Ha, Hi, Hset. unfold bind, get.
    rewrite Hc, Hget. unfold add_all_assets. unfold_monad.
    now rewrite Hskip. }
  split; [|split; [|split; [|split]]].
  - intros v path e Hget Hnf. unfold register_asset.
    rewrite bound_then, Hset. unfold bind, get.
    rewrite Hds, Hget, Hnf, Hskip. reflexivity.
  - intros v folder Hget. unfold register_asset_folder.
    rewrite bound_then, Hset. unfold bind at 1. unfold get at 1.
    rewrite Hds, Hget. unfold add_all_assets. unfold_monad.
    now rewrite Hskip.
  - exact Hurl.
  - intros url p Hparse Hwhole Ha Hi Hget. unfold register_url.
    rewrite Hparse, Hwhole. apply Hurl; [| |exact Hget];
      now destruct (url_version_id p).
  - intros target. repeat split.
    + apply (contains_skip "Asset at path "). apply contains_here.
    + apply (contains_skip "Asset at path ").
      apply (contains_skip (py_repr E target)).
      apply (contains_skip " not found in Dandiset "). apply contains_self.
    + apply (contains_skip "No assets under path "). apply contains_here.
    + apply (contains_skip "No assets under path ").
      apply (contains_skip (py_repr E target)).
      apply (contains_skip " found in Dandiset "). apply contains_self.
    + apply (contains_skip "No assets found for "). apply contains_self.
Qed.

Lemma missing_target_raises_NotFoundError_witness :
  register_asset (Demo.env false) Demo.api "000001" "draft" "sub-07/no.nwb"
    (Demo.bound_deleter false)
  = (Raise (Exn NotFoundError
              "Asset at path 'sub-07/no.nwb' not found in Dandiset 000001"),
     Demo.bound_deleter false)
  /\ register_asset_folder (Demo.env false) Demo.api "000001" "draft" "sub-07/"
       (Demo.bound_deleter false)
     = (Raise (Exn NotFoundError
                 "No assets under path 'sub-07/' found in Dandiset 000001"),
        Demo.bound_deleter false)
  /\ register_url (Demo.env false) Demo.short_url (Demo.bound_deleter false)
     = (Raise (Exn NotFoundError
                 "No assets found for https://short.example/abc"),
        Demo.bound_deleter false).
Proof.
  destruct (missing_target_raises_NotFoundError (Demo.env false)
              (Demo.bound_deleter false) {| client_api_url := Demo.api |}
              Demo.ds1 Demo.api eq_refl eq_refl eq_refl eq_refl)
    as (Hpath & Hfolder & _ & Hurl & _).
  split; [|split].
  - apply (Hpath "draft" "sub-07/no.nwb"
             (Demo.not_found "No asset at path sub-07/no.nwb"));
      reflexivity.
  - apply (Hfolder "draft" "sub-07/"). reflexivity.
  - apply (Hurl Demo.short_url (Demo.parsed "000001" None false "sub-09"));
      reflexivity.
Defined.

(** ** Skip-missing *)

(** Where skip-missing does make a missing target a silent no-op: on a new
    request that meets a missing Dandiset, and on a request bound to the
    Dandiset the call names. *)
Lemma skip_missing_is_silent_when_unbound_or_bound
  (E : Env) (d : Deleter) (api_url : string) :
  skip_missing d = true ->
  (forall (op : registration) (dandiset_id : string) (e : exn),
     client d = None ->
     target E op = Some (api_url, dandiset_id) ->
     versioned_dandiset_request E op = false ->
     let c := {| client_api_url := PyStr.rstrip_slash api_url |} in
     dandi_authenticate E c = None ->
     get_dandiset E c dandiset_id (DRAFT E) false = inl e ->
     is_NotFoundError e = true ->
     run_registration E op d = (Ok tt, set_client c d))
  /\ (forall (c : DandiAPIClient) (ds : RemoteDandiset),
        client d = Some c ->
        dandiset d = Some ds ->
        is_same_url (client_api_url c) api_url = true ->
        let nothing := {| yielded := []; failure := None |} in
        (forall (v p : string) (e : exn),
           get_asset_by_path E ds p = inl e -> is_NotFoundError e = true ->
           register_asset E api_url (dandiset_identifier ds) v p d = (Ok tt, d))
        /\ (forall v p : string,
              get_assets_with_path_prefix E ds p = nothing ->
              register_asset_folder E api_url (dandiset_identifier ds) v p d
              = (Ok tt, d))
        /\ (forall (url : string) (p : ParsedDandiURL),
              url_api_url p = api_url ->
              url_dandiset_id p = dandiset_identifier ds ->
              get_assets E p (Some c) = nothing ->
              register_assets_url E url p d = (Ok tt, d))).
Proof.
  intros Hskip. split.
  - intros op i e Hc Ht Hv c Hauth Hget Hnf.
    pose proof (binder_decides E op api_url i d Ht Hv) as H.
    assert (Hset : set_dandiset E api_url i d = (Ok false, set_client c d)).
    { unfold set_dandiset. unfold_monad. rewrite Hc. fold c.
      now rewrite Hauth, Hget, Hnf, Hskip. }
    now rewrite Hset in H.
  - intros c ds Hc Hds Hsame nothing.
    pose proof (set_dandiset_same_dandiset E d c ds api_url Hc Hds Hsame)
      as Hset.
    split; [|split].
    + intros v p e Hget Hnf. unfold register_asset.
      rewrite bound_then, Hset. unfold bind, get.
      now rewrite Hds, Hget, Hnf, Hskip.
    + intros v p Hget. unfold register_asset_folder.
      rewrite bound_then, Hset. unfold bind at 1. unfold get at 1.
      rewrite Hds, Hget. unfold add_all_assets. unfold_monad.
      now rewrite Hskip.
    + intros url p Ha Hi Hget. unfold register_assets_url.
      rewrite bound_then, Ha, Hi, Hset. unfold bind, get.
      rewrite Hc, Hget. unfold add_all_assets. unfold_monad.
      now rewrite Hskip.
Qed.

(** C5 does not hold of the code: with skip-missing on, the first
    registration of a missing Dandiset is skipped in silence, but it leaves
    the client set and no Dandiset bound, and registering the same missing
    Dandiset once more raises [AttributeError]; [delete] on the two URLs
    fails with it. *)
Theorem skip_missing_raises_on_second_missing_dandiset :
  let E := Demo.env false in
  let op := RegisterUrl Demo.missing_dandiset_url in
  let d1 := snd (run_registration E op (new_Deleter true)) in
  skip_missing (new_Deleter true) = true
  /\ get_dandiset E {| client_api_url := Demo.api |} "000009" (DRAFT E) false
     = inl (Exn NotFoundError "No such Dandiset: 000009")
  /\ run_registration E op (new_Deleter true) = (Ok tt, d1)
  /\ d1 = set_client {| client_api_url := Demo.api |} (new_Deleter true)
  /\ run_registration E op d1
     = (Raise (Exn AttributeError
                 "'NoneType' object has no attribute 'identifier'"), d1)
  /\ delete E [Demo.missing_dandiset_url; Demo.missing_dandiset_url]
       "dandi" false None false true []
     = (Raise (Exn AttributeError
                 "'NoneType' object has no attribute 'identifier'"), []).
Proof.
  repeat split; reflexivity.
Qed.

(** ** The confirmation gate *)

Lemma for_each_keeps {S A : Type} (Inv : S -> Prop) (body : A -> M S unit) :
  (forall x s, Inv s -> Inv (snd (body x s))) ->
  forall l s, Inv s -> Inv (snd (for_each l body s)).
Proof.
  intros Hbody l. induction l as [|x l IH]; intros s Hs; simpl; [exact Hs|].
  unfold bind. specialize (Hbody x s Hs).
  destruct (body x s) as [[u|e] s1]; simpl in *; auto.
Qed.

Lemma register_paths_well_formed
  (E : Env) (paths : list string) (dandi_instance : string) (d : Deleter) :
  well_formed d -> well_formed (snd (register_paths E paths dandi_instance d)).
Proof.
  unfold register_paths. apply for_each_keeps. intros p s Hs.
  destruct (is_url E p).
  - now apply register_url_well_formed.
  - now apply register_local_path_equivalent_well_formed.
Qed.

(** Declining the question ends [delete] after the question alone. *)
Lemma delete_registered_declined
  (E : Env) (d : Deleter) (ds : RemoteDandiset)
  (devel_debug : bool) (jobs : option nat) (t : trace) :
  Deleter_bool d = true ->
  dandiset d = Some ds ->
  click_confirm E (confirm_msg d ds) = false ->
  delete_registered E d devel_debug jobs false t
  = (Ok tt, (t ++ [EvConfirm (confirm_msg d ds)])%list).
Proof.
  intros Hne Hds Hno. unfold delete_registered, confirm.
  rewrite Hne, Hds. unfold log. unfold_monad. now rewrite Hno.
Qed.

(** C8: when the registrations of [delete] leave a non-empty request,
    [force] is off and the question is answered no, [delete] returns
    normally; all it did to the outside is ask the question, so neither
    [dandiset.delete] nor any [asset.delete] was called. *)
Theorem declined_confirmation_deletes_nothing
  (E : Env) (paths : list string) (dandi_instance : string)
  (devel_debug : bool) (jobs : option nat) (skip : bool)
  (d : Deleter) (t : trace) :
  register_paths E paths dandi_instance (new_Deleter skip) = (Ok tt, d) ->
  Deleter_bool d = true ->
  (forall ds, dandiset d = Some ds ->
              click_confirm E (confirm_msg d ds) = false) ->
  exists ds,
    dandiset d = Some ds
    /\ delete E paths dandi_instance devel_debug jobs false skip t
       = (Ok tt, (t ++ [EvConfirm (confirm_msg d ds)])%list)
    /\ delete_calls
         (snd (delete E paths dandi_instance devel_debug jobs false skip t))
       = delete_calls t.
Proof.
  intros Hreg Hne Hno.
  pose proof (register_paths_well_formed E paths dandi_instance
                (new_Deleter skip) (new_Deleter_well_formed skip)) as [_ Hb].
  rewrite Hreg in Hb. simpl in Hb.
  destruct (dandiset d) as [ds|] eqn:Hds; [|now elim (Hb Hne)].
  exists ds. split; [reflexivity|].
  assert (Hrun : delete E paths dandi_instance devel_debug jobs false skip t
                 = (Ok tt, (t ++ [EvConfirm (confirm_msg d ds)])%list)).
  { unfold delete. rewrite Hreg.
    apply delete_registered_declined; auto. }
  split; [exact Hrun|].
  rewrite Hrun. simpl. unfold delete_calls. rewrite filter_app. simpl.
  apply app_nil_r.
Qed.

Lemma declined_confirmation_deletes_nothing_witness :
  delete_calls
    (snd (delete (Demo.env false) [Demo.folder_url; "/data/ds/sub-02/"]
            "dandi" true None false false []))
  = [].
Proof.
  destruct (declined_confirmation_deletes_nothing (Demo.env false)
              [Demo.folder_url; "/data/ds/sub-02/"] "dandi" true None false
              {| client := Some {| client_api_url := Demo.api |};
                 dandiset := Some Demo.ds1;
                 deleting_dandiset := false;
                 skip_missing := false;
                 remote_assets := [Demo.a1; Demo.a2; Demo.a3] |}
              [] eq_refl eq_refl (fun _ _ => eq_refl))
    as (ds & _ & _ & Hcalls).
  exact Hcalls.
Defined.

(** ** Sorting keeps the assets *)

Lemma insert_by_path_Permutation (a : RemoteAsset) (l : list RemoteAsset) :
  Permutation (insert_by_path a l) (a :: l).
Proof.
  induction l as [|b l IH]; simpl; [reflexivity|].
  destruct (String.leb (asset_path a) (asset_path b)); [reflexivity|].
  rewrite IH. apply perm_swap.
Qed.

Lemma sorted_by_path_Permutation (l : list RemoteAsset) :
  Permutation (sorted_by_path l) l.
Proof.
  induction l as [|a l IH]; simpl; [reflexivity|].
  rewrite insert_by_path_Permutation. now constructor.
Qed.

Lemma filter_Permutation {A : Type} (f : A -> bool) (l l' : list A) :
  Permutation l l' -> Permutation (filter f l) (filter f l').
Proof.
  induction 1 as [|x l l' _ IH|x y l|l l' l'' _ IH1 _ IH2]; simpl.
  - constructor.
  - destruct (f x); [now constructor | exact IH].
  - destruct (f x), (f y); try reflexivity. apply perm_swap.
  - now rewrite IH1.
Qed.

(** ** Execution of a batch *)

Section Batch.

Variable E : Env.

Lemma flat_map_map {A B C : Type} (f : B -> list C) (g : A -> B) (l : list A) :
  flat_map f (map g l) = flat_map (fun x => f (g x)) l.
Proof.
  induction l as [|x l IH]; simpl; [reflexivity|]. now rewrite IH.
Qed.

(** The generator the debug mode drains for one asset. *)
Lemma drain_caught (a : RemoteAsset) (t : trace) :
  caught E a = true ->
  drain EvPrint
    (map (map_yield (fun d => ("path", asset_path a) :: d))
         (_process_asset E a)) t
  = (Ok tt, (t ++ asset_events E a)%list).
Proof.
  unfold caught, drain, _process_asset, asset_events. intros Hc.
  destruct (asset_delete E a) as [e|]; [rewrite Hc|]; simpl;
    unfold bind, log, modify, ret; simpl; now rewrite <- !app_assoc.
Qed.

Lemma drain_interrupted (a : RemoteAsset) (e : exn) (t : trace) :
  asset_delete E a = Some e ->
  is_Exception e = false ->
  drain EvPrint
    (map (map_yield (fun d => ("path", asset_path a) :: d))
         (_process_asset E a)) t
  = (Raise e, (t ++ interrupted_events a)%list).
Proof.
  unfold drain, _process_asset, interrupted_events. intros -> ->. simpl.
  unfold bind, log, modify, raise; simpl. now rewrite <- !app_assoc.
Qed.

Lemma debug_loop_caught (l : list RemoteAsset) (t : trace) :
  (forall a, In a l -> caught E a = true) ->
  for_each
    (map (fun asset =>
            map (map_yield (fun d => ("path", asset_path asset) :: d))
                (_process_asset E asset)) l)
    (drain EvPrint) t
  = (Ok tt, (t ++ flat_map (asset_events E) l)%list).
Proof.
  revert t. induction l as [|a l IH]; intros t Hall; cbn [map for_each flat_map].
  - unfold ret. now rewrite app_nil_r.
  - unfold bind. rewrite drain_caught by (apply Hall; now left).
    rewrite IH by (intros b Hb; apply Hall; now right).
    now rewrite <- app_assoc.
Qed.

Lemma debug_loop_interrupted
  (l1 l2 : list RemoteAsset) (a : RemoteAsset) (e : exn) (t : trace) :
  (forall b, In b l1 -> caught E b = true) ->
  asset_delete E a = Some e ->
  is_Exception e = false ->
  for_each
    (map (fun asset =>
            map (map_yield (fun d => ("path", asset_path asset) :: d))
                (_process_asset E asset)) (l1 ++ a :: l2))
    (drain EvPrint) t
  = (Raise e,
     (t ++ flat_map (asset_events E) l1 ++ interrupted_events a)%list).
Proof.
  revert t. induction l1 as [|b l1 IH]; intros t Hall Ha He;
    cbn [map for_each flat_map app].
  - unfold bind. now rewrite (drain_interrupted a e t Ha He).
  - unfold bind. rewrite drain_caught by (apply Hall; now left).
    rewrite (IH _ (fun x Hx => Hall x (or_intror Hx)) Ha He).
    now rewrite <- !app_assoc.
Qed.

Lemma log_run (ev : event) (t : trace) :
  log ev t = (Ok tt, (t ++ [ev])%list).
Proof. reflexivity. Qed.

Lemma table_run (rows : list pyout_row) (jobs : option nat) (t : trace) :
  (log (EvTableOpen rec_fields jobs) ;;;
   for_each rows (fun row => log (EvTableRow row)) ;;;
   log EvTableClose) t
  = (Ok tt,
     (t ++ EvTableOpen rec_fields jobs
        :: map EvTableRow rows ++ [EvTableClose])%list).
Proof.
  assert (Hrows : forall (l : list pyout_row) (t' : trace),
             for_each l (fun row => log (EvTableRow row)) t'
             = (Ok tt, (t' ++ map EvTableRow l)%list)).
  { induction l as [|r l IH]; intros t'; simpl.
    - unfold ret. now rewrite app_nil_r.
    - unfold bind. rewrite log_run, IH. now rewrite <- app_assoc. }
  unfold bind. rewrite log_run, Hrows, log_run.
  rewrite <- !app_assoc. reflexivity.
Qed.

Lemma forced_run_over_assets
  (d : Deleter) (devel_debug : bool) (jobs : option nat) (t : trace) :
  deleting_dandiset d = false ->
  remote_assets d <> [] ->
  delete_registered E d devel_debug jobs true t
  = if devel_debug then
      for_each (process_assets_debug E d) (drain EvPrint) t
    else
      (Ok tt,
       (t ++ EvTableOpen rec_fields jobs
          :: map EvTableRow (process_assets_pyout E d) ++ [EvTableClose])%list).
Proof.
  intros Hdd Hne.
  assert (Hbool : Deleter_bool d = true).
  { unfold Deleter_bool. rewrite Hdd. now destruct (remote_assets d). }
  unfold delete_registered. rewrite Hbool, Hdd.
  destruct devel_debug; [reflexivity|].
  rewrite <- (table_run (process_assets_pyout E d) jobs t). reflexivity.
Qed.

(** A forced debug run in which no deletion is interrupted. *)
Lemma delete_registered_assets
  (d : Deleter) (jobs : option nat) (t : trace) :
  deleting_dandiset d = false ->
  remote_assets d <> [] ->
  (forall a, In a (remote_assets d) -> caught E a = true) ->
  delete_registered E d true jobs true t
  = (Ok tt,
     (t ++ flat_map (asset_events E)
             (sorted_by_path (remote_assets d)))%list).
Proof.
  intros Hdd Hne Hall.
  rewrite (forced_run_over_assets d true jobs t Hdd Hne).
  unfold process_assets_debug. apply debug_loop_caught.
  intros a Ha. apply Hall.
  apply (Permutation_in a (sorted_by_path_Permutation (remote_assets d))).
  exact Ha.
Qed.

End Batch.

(** *** Records of a batch *)

Lemma flat_map_flat_map {A B C : Type}
  (f : A -> list B) (g : B -> list C) (l : list A) :
  flat_map g (flat_map f l) = flat_map (fun x => flat_map g (f x)) l.
Proof.
  induction l as [|x l IH]; simpl; [reflexivity|].
  now rewrite flat_map_app, IH.
Qed.

Lemma filter_flat_map {A B : Type}
  (p : B -> bool) (f : A -> list B) (l : list A) :
  filter p (flat_map f l) = flat_map (fun x => filter p (f x)) l.
Proof.
  induction l as [|x l IH]; simpl; [reflexivity|].
  now rewrite filter_app, IH.
Qed.

Lemma flat_map_when {A B : Type} (c : A -> bool) (g : A -> B) (l : list A) :
  flat_map (fun x => if c x then [g x] else []) l = map g (filter c l).
Proof.
  induction l as [|x l IH]; simpl; [reflexivity|].
  rewrite IH. now destruct (c x).
Qed.

Section Batch_records.

Variable E : Env.

Lemma status_records_asset_events (a : RemoteAsset) :
  filter (has_status "Deleted") (records (asset_events E a))
  = (if negb (fails E a) then [deleted_row a] else [])
  /\ filter (has_status "Error") (records (asset_events E a))
     = (if fails E a then [error_row E a] else []).
Proof.
  unfold fails, error_row, deleted_row, asset_events.
  simpl; destruct (asset_delete E a); split; reflexivity.
Qed.

Lemma batch_records (l : list RemoteAsset) :
  filter (has_status "Deleted") (records (flat_map (asset_events E) l))
  = map deleted_row (filter (fun a => negb (fails E a)) l)
  /\ filter (has_status "Error") (records (flat_map (asset_events E) l))
     = map (error_row E) (filter (fails E) l)
  /\ deleted_assets (flat_map (asset_events E) l) = l.
Proof.
  unfold records at 1 2, deleted_assets.
  rewrite !flat_map_flat_map, !filter_flat_map.
  repeat split.
  - rewrite <- flat_map_when. apply flat_map_ext. intros a.
    apply (status_records_asset_events a).
  - rewrite <- flat_map_when. apply flat_map_ext. intros a.
    apply (status_records_asset_events a).
  - induction l as [|a l IH]; [reflexivity|].
    cbn [flat_map]. rewrite IH. reflexivity.
Qed.

(** The rows of the table mode carry, asset for asset, what the debug
    mode prints. *)
Lemma rows_match_debug (l : list RemoteAsset) :
  (forall a, In a l -> caught E a = true) ->
  let rows :=
    map (fun asset =>
           {| row_path := asset_path asset;
              row_status_message := _process_asset E asset |}) l in
  flat_map row_records rows = records (flat_map (asset_events E) l)
  /\ flat_map row_calls rows = l
  /\ flat_map row_escapes rows = [].
Proof.
  intros Hall rows. subst rows.
  induction l as [|a l IH]; [repeat split|].
  assert (Ha : caught E a = true) by (apply Hall; now left).
  destruct IH as (IH1 & IH2 & IH3); [intros b Hb; apply Hall; now right|].
  assert (Hrow :
    row_records {| row_path := asset_path a;
                   row_status_message := _process_asset E a |}
    = records (asset_events E a)
    /\ row_calls {| row_path := asset_path a;
                    row_status_message := _process_asset E a |} = [a]
    /\ row_escapes {| row_path := asset_path a;
                      row_status_message := _process_asset E a |} = []).
  { unfold row_records, row_calls, row_escapes, records, asset_events,
      _process_asset, caught in *. simpl.
    destruct (asset_delete E a) as [e|]; [rewrite Ha|]; repeat split. }
  destruct Hrow as (Hr1 & Hr2 & Hr3).
  cbn [map flat_map]. rewrite IH1, IH2, IH3, Hr1, Hr2, Hr3.
  split; [|split; reflexivity].
  unfold records. now rewrite flat_map_app.
Qed.

End Batch_records.

Lemma filter_fails_none (E : Env) (l : list RemoteAsset) :
  (forall b, In b l -> asset_delete E b = None) ->
  filter (fails E) l = [] /\ filter (fun a => negb (fails E a)) l = l.
Proof.
  intros Hall. induction l as [|b l IH]; simpl; [split; reflexivity|].
  assert (Hb : fails E b = false)
    by (unfold fails; now rewrite (Hall b (or_introl eq_refl))).
  destruct IH as [IH1 IH2]; [intros x Hx; apply Hall; now right|].
  now rewrite Hb, IH1, IH2.
Qed.

(** C6, as stated, fails: [except Exception] catches what derives from
    [Exception] and nothing else.  Of three assets, the deletion of the
    first in path order is interrupted from the keyboard and the two
    others would succeed; the run raises [KeyboardInterrupt], prints no
    Error and no Deleted record, and never attempts the two others. *)
Lemma interrupted_deletion_is_not_isolated :
  let E := interrupting_env in
  let d := set_remote_assets [Demo.a1; Demo.a2; Demo.a3]
             (Demo.bound_deleter false) in
  let run := delete_registered E d true None true [] in
  asset_delete E Demo.a2 = Some keyboard_interrupt
  /\ asset_delete E Demo.a1 = None
  /\ asset_delete E Demo.a3 = None
  /\ fst run = Raise keyboard_interrupt
  /\ filter (has_status "Error") (records (snd run)) = []
  /\ filter (has_status "Deleted") (records (snd run)) = []
  /\ deleted_assets (snd run) = [Demo.a2].
Proof.
  repeat split; reflexivity.
Qed.

(** C6, amended: when the request holds N assets of which exactly one
    fails to be deleted, with an exception that derives from [Exception],
    a run of the batch ends normally.  In debug mode, among the records
    printed there are N-1 with status Deleted and a single one with status
    Error, which carries the path of the failing asset and the message
    "type: text" of its exception, and [delete] was called once on every
    asset, in path order.  In the default mode every asset is handed to
    the table as a row, and the generators of the rows, once run, give the
    same records and the same calls and let no exception out. *)
Theorem one_failed_deletion_is_isolated
  (E : Env) (d : Deleter) (l1 l2 : list RemoteAsset) (a : RemoteAsset)
  (e : exn) (jobs : option nat) (t : trace) :
  deleting_dandiset d = false ->
  remote_assets d = (l1 ++ a :: l2)%list ->
  asset_delete E a = Some e ->
  is_Exception e = true ->
  (forall b, In b (l1 ++ l2)%list -> asset_delete E b = None) ->
  let failed :=
    [[("path", asset_path a); ("status", "Error");
      ("message", class_name (exn_cls e) ++ ": " ++ exn_msg e)]] in
  (exists new : trace,
     delete_registered E d true jobs true t = (Ok tt, (t ++ new)%list)
     /\ List.length (filter (has_status "Deleted") (records new))
        = List.length (remote_assets d) - 1
     /\ filter (has_status "Error") (records new) = failed
     /\ deleted_assets new = sorted_by_path (remote_assets d)
     /\ Permutation (deleted_assets new) (remote_assets d))
  /\ (exists rows : list pyout_row,
        delete_registered E d false jobs true t
        = (Ok tt,
           (t ++ EvTableOpen rec_fields jobs
              :: map EvTableRow rows ++ [EvTableClose])%list)
        /\ List.length
             (filter (has_status "Deleted") (flat_map row_records rows))
           = List.length (remote_assets d) - 1
        /\ filter (has_status "Error") (flat_map row_records rows) = failed
        /\ flat_map row_calls rows = sorted_by_path (remote_assets d)
        /\ flat_map row_escapes rows = []).
Proof.
  intros Hdd Hl Ha He Hrest failed.
  destruct (batch_records E (sorted_by_path (remote_assets d)))
    as (Hdel & Herr & Hcalls).
  assert (H1 : forall b, In b l1 -> asset_delete E b = None)
    by (intros b Hb; apply Hrest, in_or_app; now left).
  assert (H2 : forall b, In b l2 -> asset_delete E b = None)
    by (intros b Hb; apply Hrest, in_or_app; now right).
  destruct (filter_fails_none E l1 H1) as [Hf1 Hk1].
  destruct (filter_fails_none E l2 H2) as [Hf2 Hk2].
  assert (Hfa : fails E a = true) by (unfold fails; now rewrite Ha).
  assert (Hne : remote_assets d <> []) by (rewrite Hl; now destruct l1).
  assert (Hcaught : forall b, In b (remote_assets d) -> caught E b = true).
  { intros b Hb. rewrite Hl in Hb. unfold caught.
    apply in_app_or in Hb. destruct Hb as [Hb|[<-|Hb]].
    - now rewrite (H1 b Hb).
    - now rewrite Ha.
    - now rewrite (H2 b Hb). }
  assert (Hsorted : forall b, In b (sorted_by_path (remote_assets d)) ->
                              caught E b = true).
  { intros b Hb. apply Hcaught.
    apply (Permutation_in b (sorted_by_path_Permutation (remote_assets d))).
    exact Hb. }
  assert (Hcount :
    List.length
      (filter (has_status "Deleted")
         (records (flat_map (asset_events E)
                     (sorted_by_path (remote_assets d)))))
    = List.length (remote_assets d) - 1).
  { rewrite Hdel, length_map.
    rewrite (Permutation_length
               (filter_Permutation (fun x => negb (fails E x)) _ _
                  (sorted_by_path_Permutation (remote_assets d)))).
    rewrite Hl, filter_app. simpl. rewrite Hfa. simpl.
    rewrite Hk1, Hk2, !length_app. simpl. lia. }
  assert (Hfailed :
    filter (has_status "Error")
      (records (flat_map (asset_events E)
                  (sorted_by_path (remote_assets d))))
    = failed).
  { rewrite Herr, Hl.
    pose proof (filter_Permutation (fails E) _ _
                  (sorted_by_path_Permutation (remote_assets d))) as Hp.
    rewrite Hl, filter_app in Hp. simpl in Hp.
    rewrite Hfa, Hf1, Hf2 in Hp. simpl in Hp.
    apply Permutation_sym, Permutation_length_1_inv in Hp.
    rewrite Hp. simpl. unfold error_row. now rewrite Ha. }
  split.
  - exists (flat_map (asset_events E) (sorted_by_path (remote_assets d))).
    split; [now apply delete_registered_assets|].
    split; [exact Hcount|]. split; [exact Hfailed|].
    split; [exact Hcalls|]. rewrite Hcalls.
    apply sorted_by_path_Permutation.
  - exists (process_assets_pyout E d).
    split; [now rewrite (forced_run_over_assets E d false jobs t Hdd Hne)|].
    destruct (rows_match_debug E (sorted_by_path (remote_assets d)) Hsorted)
      as (Hrec & Hrc & Hesc).
    unfold process_assets_pyout. rewrite Hrec, Hrc, Hesc. auto.
Qed.

Lemma one_failed_deletion_is_isolated_witness :
  exists new : trace,
    delete_registered (Demo.env false)
      (set_remote_assets [Demo.a1; Demo.a2; Demo.a3] (Demo.bound_deleter false))
      true None true []
    = (Ok tt, new)
    /\ List.length (filter (has_status "Deleted") (records new)) = 2
    /\ filter (has_status "Error") (records new)
       = [[("path", "sub-01/anat.nwb"); ("status", "Error");
           ("message", "HTTPError: 500 Server Error")]]
    /\ deleted_assets new = [Demo.a2; Demo.a1; Demo.a3].
Proof.
  destruct (one_failed_deletion_is_isolated (Demo.env false)
              (set_remote_assets [Demo.a1; Demo.a2; Demo.a3]
                 (Demo.bound_deleter false))
              [Demo.a1] [Demo.a3] Demo.a2 Demo.server_error None []
              eq_refl eq_refl eq_refl eq_refl)
    as [(new & Hrun & Hdel & Herr & Hcalls & _) _].
  - intros b [<-|[<-|[]]]; reflexivity.
  - exists new. repeat split; assumption.
Defined.

(** * Further properties of the code *)

(** ** Endpoints *)

Lemma rstrip_slash_idempotent (s : string) :
  PyStr.rstrip_slash (PyStr.rstrip_slash s) = PyStr.rstrip_slash s.
Proof.
  destruct (rstrip_slash_decompose s) as [n Hn].
  rewrite Hn at 2. now rewrite rstrip_slash_app_slashes.
Qed.

(** [is_same_url] is an equivalence on URL strings, and adding slashes at
    the end of a URL never changes its class. *)
Theorem is_same_url_is_an_equivalence :
  (forall u, is_same_url u u = true)
  /\ (forall u v, is_same_url u v = is_same_url v u)
  /\ (forall u v w,
        is_same_url u v = true -> is_same_url v w = true ->
        is_same_url u w = true)
  /\ (forall u n, is_same_url (u ++ PyStr.slashes n) u = true).
Proof.
  unfold is_same_url. repeat split.
  - intros u. apply String.eqb_refl.
  - intros u v. apply String.eqb_sym.
  - intros u v w Huv Hvw. apply String.eqb_eq in Huv, Hvw.
    apply String.eqb_eq. congruence.
  - intros u n. rewrite rstrip_slash_app_slashes. apply String.eqb_refl.
Qed.

Lemma is_same_url_is_an_equivalence_witness :
  is_same_url "https://archive/api/" "https://archive/api//" = true.
Proof.
  destruct is_same_url_is_an_equivalence as (_ & _ & Htrans & _).
  apply (Htrans _ "https://archive/api"); reflexivity.
Defined.

(** The first binding builds the client with the endpoint stripped of its
    trailing slashes, whether or not the Dandiset is then found: the URL
    the client holds does not end with a slash, the URL given is that URL
    followed by slashes, and the two pass [is_same_url]. *)
Theorem first_binding_strips_the_endpoint
  (E : Env) (api_url dandiset_id : string) (d : Deleter) :
  client d = None ->
  exists c n,
    client (snd (set_dandiset E api_url dandiset_id d)) = Some c
    /\ PyStr.endswith_slash (client_api_url c) = false
    /\ api_url = client_api_url c ++ PyStr.slashes n
    /\ is_same_url (client_api_url c) api_url = true.
Proof.
  intros Hc.
  destruct (rstrip_slash_decompose api_url) as [n Hn].
  exists {| client_api_url := PyStr.rstrip_slash api_url |}, n.
  split; [|split; [|split]].
  - unfold set_dandiset. unfold_monad. rewrite Hc.
    repeat case_step; reflexivity.
  - apply rstrip_slash_no_trailing.
  - exact Hn.
  - unfold is_same_url. simpl. rewrite rstrip_slash_idempotent.
    apply String.eqb_refl.
Qed.

Lemma first_binding_strips_the_endpoint_witness :
  exists c n,
    client (snd (set_dandiset (Demo.env false) "https://archive/api//"
                   "000001" (new_Deleter false))) = Some c
    /\ PyStr.endswith_slash (client_api_url c) = false
    /\ "https://archive/api//" = client_api_url c ++ PyStr.slashes n
    /\ is_same_url (client_api_url c) "https://archive/api//" = true.
Proof.
  apply (first_binding_strips_the_endpoint (Demo.env false)
           "https://archive/api//" "000001" (new_Deleter false) eq_refl).
Defined.

(** A registration for another endpoint than the client's raises the
    instance-mixing [ValueError] and leaves the request as it was; the
    endpoint is compared first, whatever Dandiset is or is not bound. *)
Theorem other_endpoint_is_refused
  (E : Env) (d : Deleter) (c : DandiAPIClient) (op : registration)
  (api_url dandiset_id : string) :
  client d = Some c ->
  target E op = Some (api_url, dandiset_id) ->
  versioned_dandiset_request E op = false ->
  is_same_url (client_api_url c) api_url = false ->
  run_registration E op d = (Raise mixing_instances, d)
  /\ exn_cls mixing_instances = ValueError.
Proof.
  intros Hc Ht Hv Hdiff. split; [|reflexivity].
  pose proof (binder_decides E op api_url dandiset_id d Ht Hv) as H.
  assert (Hset : set_dandiset E api_url dandiset_id d
                 = (Raise mixing_instances, d)).
  { unfold set_dandiset. unfold_monad. now rewrite Hc, Hdiff. }
  now rewrite Hset in H.
Qed.

Lemma other_endpoint_is_refused_witness :
  run_registration (Demo.env false)
    (RegisterAsset "https://elsewhere/api" "000001" "draft" "sub-01/func.nwb")
    (Demo.bound_deleter false)
  = (Raise mixing_instances, Demo.bound_deleter false).
Proof.
  apply (other_endpoint_is_refused (Demo.env false) (Demo.bound_deleter false)
           {| client_api_url := Demo.api |}
           (RegisterAsset "https://elsewhere/api" "000001" "draft"
              "sub-01/func.nwb")
           "https://elsewhere/api" "000001");
    reflexivity.
Defined.

(** ** What registrations keep *)

Lemma extends_refl (d : Deleter) : extends d d.
Proof.
  repeat split; auto. exists []. now rewrite app_nil_r.
Qed.

Lemma extends_trans (d1 d2 d3 : Deleter) :
  extends d1 d2 -> extends d2 d3 -> extends d1 d3.
Proof.
  intros (Hs & [l Hl] & Hf & Hc & Hd) (Hs' & [l' Hl'] & Hf' & Hc' & Hd').
  repeat split.
  - congruence.
  - exists (l ++ l')%list. rewrite Hl', Hl. now rewrite app_assoc.
  - auto.
  - auto.
  - intros c ds H1 H2. apply (Hd' c ds); auto. now apply (Hd c ds).
Qed.

Section Extension.

Variable E : Env.

Lemma set_dandiset_extends (a i : string) (d : Deleter) :
  extends d (snd (set_dandiset E a i d)).
Proof.
  unfold set_dandiset. unfold_monad.
  repeat case_step; simpl; try apply extends_refl;
    (repeat split; simpl; auto; try congruence;
     exists []; now rewrite app_nil_r).
Qed.

Lemma add_asset_extends (asset : RemoteAsset) (d : Deleter) :
  extends d (snd (add_asset asset d)).
Proof.
  rewrite add_asset_run. simpl.
  destruct (existsb (same_identifier asset) (remote_assets d));
    [apply extends_refl|].
  repeat split; simpl; auto. now exists [asset].
Qed.

Lemma for_each_add_asset_extends (l : list RemoteAsset) (d : Deleter) :
  extends d (snd (for_each l add_asset d)).
Proof.
  revert d. induction l as [|a l IH]; intros d; simpl.
  - apply extends_refl.
  - unfold bind. pose proof (add_asset_extends a d) as Ha.
    rewrite add_asset_run in *. simpl in *.
    eapply extends_trans; [exact Ha | apply IH].
Qed.

Lemma add_all_assets_extends (it : AssetIter) (missing : exn) (d : Deleter) :
  extends d (snd (add_all_assets it missing d)).
Proof.
  unfold add_all_assets.
  pose proof (for_each_add_asset_extends (yielded it) d) as Hl.
  destruct (for_each_add_asset (yielded it) d) as (d' & Hrun & _).
  rewrite Hrun in Hl. simpl in Hl.
  unfold bind, get, ret, raise. rewrite Hrun.
  repeat case_step; simpl; exact Hl.
Qed.

Lemma bound_then_extends (a i : string) (k : M Deleter unit) :
  (forall d1, extends d1 (snd (k d1))) ->
  forall d,
    extends d
      (snd ((bound <- set_dandiset E a i ;; if negb bound then ret tt else k) d)).
Proof.
  intros Hk d. rewrite bound_then.
  pose proof (set_dandiset_extends a i d) as Hset.
  destruct (set_dandiset E a i d) as [[[|]|e] d1]; simpl in *; auto.
  eapply extends_trans; [exact Hset | apply Hk].
Qed.

Lemma register_asset_extends (a i v p : string) (d : Deleter) :
  extends d (snd (register_asset E a i v p d)).
Proof.
  unfold register_asset. apply bound_then_extends.
  intros d1. unfold bind, get, ret, raise.
  repeat case_step; try apply extends_refl. apply add_asset_extends.
Qed.

Lemma register_asset_folder_extends (a i v p : string) (d : Deleter) :
  extends d (snd (register_asset_folder E a i v p d)).
Proof.
  unfold register_asset_folder. apply bound_then_extends.
  intros d1. unfold bind, get, raise.
  case_step; [apply add_all_assets_extends | apply extends_refl].
Qed.

Lemma register_dandiset_extends (a i : string) (d : Deleter) :
  extends d (snd (register_dandiset E a i d)).
Proof.
  unfold register_dandiset. apply bound_then_extends.
  intros d1. repeat split; simpl; auto. exists []. now rewrite app_nil_r.
Qed.

Lemma register_assets_url_extends
  (u : string) (p : ParsedDandiURL) (d : Deleter) :
  extends d (snd (register_assets_url E u p d)).
Proof.
  unfold register_assets_url. apply bound_then_extends.
  intros d1. unfold bind, get. apply add_all_assets_extends.
Qed.

Lemma run_registration_extends (op : registration) (d : Deleter) :
  extends d (snd (run_registration E op d)).
Proof.
  destruct op; simpl.
  - apply register_dandiset_extends.
  - apply register_asset_extends.
  - apply register_asset_folder_extends.
  - apply register_assets_url_extends.
  - unfold register_url.
    destruct (parse_dandi_url E url) as [e|p]; [apply extends_refl|].
    destruct (is_dandiset_url p).
    + destruct (url_version_id p); [apply extends_refl|].
      apply register_dandiset_extends.
    + apply register_assets_url_extends.
  - unfold register_local_path_equivalent.
    destruct (get_instance E instance_name) as [e|inst];
      [apply extends_refl|].
    destruct (find_local_asset E filepath) as [e|[i p]];
      [apply extends_refl|].
    apply bound_then_extends. intros d1.
    destruct (PyStr.endswith_slash p).
    + apply register_asset_folder_extends.
    + apply register_asset_extends.
Qed.

Lemma run_registrations_extends (ops : list registration) (d : Deleter) :
  extends d (run_registrations E ops d).
Proof.
  revert d. induction ops as [|op ops IH]; intros d; simpl.
  - apply extends_refl.
  - eapply extends_trans; [apply run_registration_extends | apply IH].
Qed.

End Extension.

(** Once a client and a Dandiset are bound, no sequence of registrations,
    failed ones included, replaces either of them. *)
Theorem binding_is_never_replaced
  (E : Env) (ops : list registration) (d : Deleter)
  (c : DandiAPIClient) (ds : RemoteDandiset) :
  client d = Some c ->
  dandiset d = Some ds ->
  client (run_registrations E ops d) = Some c
  /\ dandiset (run_registrations E ops d) = Some ds.
Proof.
  intros Hc Hds.
  destruct (run_registrations_extends E ops d) as (_ & _ & _ & Hc' & Hd').
  split; [now apply Hc' | now apply (Hd' c ds)].
Qed.

Lemma binding_is_never_replaced_witness :
  client (run_registrations (Demo.env false)
            [RegisterUrl Demo.other_dandiset_url; RegisterUrl Demo.folder_url]
            (Demo.bound_deleter false))
  = Some {| client_api_url := Demo.api |}
  /\ dandiset (run_registrations (Demo.env false)
                 [RegisterUrl Demo.other_dandiset_url;
                  RegisterUrl Demo.folder_url]
                 (Demo.bound_deleter false))
     = Some Demo.ds1.
Proof.
  apply (binding_is_never_replaced (Demo.env false)
           [RegisterUrl Demo.other_dandiset_url; RegisterUrl Demo.folder_url]
           (Demo.bound_deleter false)); reflexivity.
Defined.

(** Registrations only ever append: after any sequence of them the assets
    held before are still there, at the front and in the same order; the
    skip-missing policy is what it was; and a request for the whole
    Dandiset is never withdrawn. *)
Theorem registrations_only_append
  (E : Env) (ops : list registration) (d : Deleter) :
  (exists added,
     remote_assets (run_registrations E ops d)
     = (remote_assets d ++ added)%list)
  /\ skip_missing (run_registrations E ops d) = skip_missing d
  /\ (deleting_dandiset d = true ->
      deleting_dandiset (run_registrations E ops d) = true).
Proof.
  destruct (run_registrations_extends E ops d) as (Hs & Hl & Hf & _).
  auto.
Qed.

Lemma registrations_only_append_witness :
  deleting_dandiset
    (run_registrations (Demo.env false)
       [RegisterUrl Demo.folder_url; RegisterUrl Demo.versioned_url]
       (set_deleting_dandiset true (Demo.bound_deleter false)))
  = true.
Proof.
  apply (registrations_only_append (Demo.env false)
           [RegisterUrl Demo.folder_url; RegisterUrl Demo.versioned_url]
           (set_deleting_dandiset true (Demo.bound_deleter false))).
  reflexivity.
Defined.

(** ** What a registration adds *)

Lemma for_each_add_asset_content (l : list RemoteAsset) (d : Deleter) :
  (forall a, In a l ->
     In (asset_identifier a)
        (identifiers (remote_assets (snd (for_each l add_asset d)))))
  /\ (forall x, In x (remote_assets (snd (for_each l add_asset d))) ->
        In x (remote_assets d) \/ In x l).
Proof.
  revert d. induction l as [|a l IH]; intros d; simpl.
  - split; [intros a []|auto].
  - unfold bind. rewrite add_asset_run.
    set (d1 := if existsb _ _ then d else _).
    destruct (IH d1) as [IH1 IH2].
    destruct (for_each_add_asset_extends l d1) as (_ & [l' Hl'] & _).
    assert (Ha : In (asset_identifier a) (identifiers (remote_assets d1))).
    { subst d1.
      destruct (existsb (same_identifier a) (remote_assets d)) eqn:Hex.
      - now apply same_identifier_In.
      - simpl. unfold identifiers. rewrite map_app. apply in_or_app.
        right. now left. }
    assert (Hd1 : forall x, In x (remote_assets d1) ->
                            In x (remote_assets d) \/ x = a).
    { subst d1.
      destruct (existsb (same_identifier a) (remote_assets d)); simpl; auto.
      intros x Hx. apply in_app_or in Hx. destruct Hx as [Hx|[Hx|[]]]; auto. }
    split.
    + intros b [<-|Hb]; [|now apply IH1].
      rewrite Hl'. unfold identifiers in *. rewrite map_app.
      apply in_or_app. now left.
    + intros x Hx. destruct (IH2 x Hx) as [H|H]; [|auto].
      destruct (Hd1 x H) as [H'|H']; auto.
Qed.

Lemma add_all_assets_state (it : AssetIter) (missing : exn) (d : Deleter) :
  snd (add_all_assets it missing d) = snd (for_each (yielded it) add_asset d).
Proof.
  unfold add_all_assets.
  destruct (for_each_add_asset (yielded it) d) as (d' & Hrun & _).
  unfold bind, get, ret, raise. rewrite Hrun.
  repeat case_step; reflexivity.
Qed.

Section Bound_registrations.

Variables (E : Env) (d : Deleter) (c : DandiAPIClient) (ds : RemoteDandiset).
Variable api_url : string.
Hypothesis Hc : client d = Some c.
Hypothesis Hds : dandiset d = Some ds.
Hypothesis Hsame : is_same_url (client_api_url c) api_url = true.

Lemma register_asset_bound (v p : string) :
  register_asset E api_url (dandiset_identifier ds) v p d
  = match get_asset_by_path E ds p with
    | inr asset => add_asset asset d
    | inl e =>
        if is_NotFoundError e then
          if skip_missing d then (Ok tt, d)
          else (Raise (asset_not_found E p (dandiset_identifier ds)), d)
        else (Raise e, d)
    end.
Proof.
  unfold register_asset.
  rewrite bound_then, (set_dandiset_same_dandiset E d c ds api_url Hc Hds Hsame).
  unfold bind, get, ret, raise. rewrite Hds.
  repeat case_step; reflexivity.
Qed.

Lemma register_asset_folder_bound (v p : string) :
  register_asset_folder E api_url (dandiset_identifier ds) v p d
  = add_all_assets (get_assets_with_path_prefix E ds p)
      (folder_not_found E p (dandiset_identifier ds)) d.
Proof.
  unfold register_asset_folder.
  rewrite bound_then, (set_dandiset_same_dandiset E d c ds api_url Hc Hds Hsame).
  unfold bind at 1. unfold get at 1. now rewrite Hds.
Qed.

Lemma register_assets_url_bound (url : string) (p : ParsedDandiURL) :
  url_api_url p = api_url ->
  url_dandiset_id p = dandiset_identifier ds ->
  register_assets_url E url p d
  = add_all_assets (get_assets E p (Some c)) (url_not_found url) d.
Proof.
  intros Ha Hi. unfold register_assets_url.
  rewrite bound_then, Ha, Hi,
    (set_dandiset_same_dandiset E d c ds api_url Hc Hds Hsame).
  unfold bind at 1. unfold get at 1. now rewrite Hc.
Qed.

End Bound_registrations.

(** On a request bound to the Dandiset it names, a registration by path
    ends with the asset found held; a registration by folder or by URL
    ends with every asset the server listed held, by identifier, even when
    the listing breaks off with an error; and no asset is held that was
    neither held before nor listed. *)
Theorem registration_holds_what_the_server_lists
  (E : Env) (d : Deleter) (c : DandiAPIClient) (ds : RemoteDandiset)
  (api_url : string) :
  client d = Some c ->
  dandiset d = Some ds ->
  is_same_url (client_api_url c) api_url = true ->
  let held d' := identifiers (remote_assets d') in
  (forall (v p : string) (a : RemoteAsset),
     get_asset_by_path E ds p = inr a ->
     In (asset_identifier a)
        (held (snd (register_asset E api_url (dandiset_identifier ds) v p d))))
  /\ (forall (v p : string),
        let d' :=
          snd (register_asset_folder E api_url (dandiset_identifier ds) v p d) in
        let listed := yielded (get_assets_with_path_prefix E ds p) in
        (forall a, In a listed -> In (asset_identifier a) (held d'))
        /\ (forall x, In x (remote_assets d') ->
              In x (remote_assets d) \/ In x listed))
  /\ (forall (url : string) (p : ParsedDandiURL),
        url_api_url p = api_url ->
        url_dandiset_id p = dandiset_identifier ds ->
        let d' := snd (register_assets_url E url p d) in
        let listed := yielded (get_assets E p (Some c)) in
        (forall a, In a listed -> In (asset_identifier a) (held d'))
        /\ (forall x, In x (remote_assets d') ->
              In x (remote_assets d) \/ In x listed)).
Proof.
  intros Hc Hds Hsame held.
  split; [|split].
  - intros v p a Hget.
    rewrite (register_asset_bound E d c ds api_url Hc Hds Hsame), Hget.
    destruct (for_each_add_asset_content [a] d) as [H _].
    specialize (H a (or_introl eq_refl)). simpl in H. unfold bind in H.
    rewrite add_asset_run in *. exact H.
  - intros v p. cbv zeta.
    rewrite (register_asset_folder_bound E d c ds api_url Hc Hds Hsame).
    rewrite add_all_assets_state. apply for_each_add_asset_content.
  - intros url p Ha Hi. cbv zeta.
    rewrite (register_assets_url_bound E d c ds api_url Hc Hds Hsame url p Ha Hi).
    rewrite add_all_assets_state. apply for_each_add_asset_content.
Qed.

Lemma registration_holds_what_the_server_lists_witness :
  In "id-2"
     (identifiers
        (remote_assets
           (snd (register_asset_folder (Demo.env false) Demo.api "000001"
                   "draft" "sub-01/" (Demo.bound_deleter false))))).
Proof.
  destruct (registration_holds_what_the_server_lists (Demo.env false)
              (Demo.bound_deleter false) {| client_api_url := Demo.api |}
              Demo.ds1 Demo.api eq_refl eq_refl eq_refl)
    as (_ & Hfolder & _).
  destruct (Hfolder "draft" "sub-01/") as [Hall _].
  apply (Hall Demo.a2). simpl. right. left. reflexivity.
Defined.

(** ** Registering again *)

Section Registering_again.

Variable E : Env.

Lemma for_each_add_asset_again (l : list RemoteAsset) (d : Deleter) :
  (forall a, In a l -> In (asset_identifier a) (identifiers (remote_assets d))) ->
  for_each l add_asset d = (Ok tt, d).
Proof.
  induction l as [|a l IH]; intros Hall; simpl; [reflexivity|].
  unfold bind. rewrite add_asset_run.
  assert (Ha : existsb (same_identifier a) (remote_assets d) = true)
    by (apply same_identifier_In, Hall; now left).
  rewrite Ha. apply IH. intros b Hb. apply Hall. now right.
Qed.

Lemma add_all_assets_run
  (it : AssetIter) (missing : exn) (d d1 : Deleter) :
  for_each (yielded it) add_asset d = (Ok tt, d1) ->
  add_all_assets it missing d
  = (match failure it with
     | Some e => Raise e
     | None =>
         if negb (match yielded it with [] => false | _ :: _ => true end)
            && negb (skip_missing d1)
         then Raise missing else Ok tt
     end, d1).
Proof.
  intros Hrun. unfold add_all_assets, bind, get, ret, raise. rewrite Hrun.
  repeat case_step; reflexivity.
Qed.

Lemma add_all_assets_again (it : AssetIter) (missing : exn) (d : Deleter) :
  add_all_assets it missing (snd (add_all_assets it missing d))
  = add_all_assets it missing d.
Proof.
  destruct (for_each_add_asset (yielded it) d) as (d1 & Hrun & _).
  rewrite (add_all_assets_run it missing d d1 Hrun). simpl.
  apply add_all_assets_run. apply for_each_add_asset_again.
  destruct (for_each_add_asset_content (yielded it) d) as [Hin _].
  rewrite Hrun in Hin. exact Hin.
Qed.

Lemma add_asset_again (asset : RemoteAsset) (d : Deleter) :
  add_asset asset (snd (add_asset asset d)) = add_asset asset d.
Proof.
  rewrite !add_asset_run. simpl.
  destruct (existsb (same_identifier asset) (remote_assets d)) eqn:Hex.
  - now rewrite Hex.
  - simpl. rewrite existsb_app. simpl. unfold same_identifier at 2.
    rewrite String.eqb_refl. now rewrite orb_true_r.
Qed.

(** On a bound request the binder only answers; what it answers depends on
    the client and the Dandiset alone. *)
Lemma set_dandiset_bound
  (a i : string) (c : DandiAPIClient) (ds : RemoteDandiset) :
  exists r, forall d,
    client d = Some c -> dandiset d = Some ds ->
    set_dandiset E a i d = (r, d).
Proof.
  exists (if negb (is_same_url (client_api_url c) a) then Raise mixing_instances
          else if negb (String.eqb (dandiset_identifier ds) i)
               then Raise mixing_dandisets else Ok true).
  intros d Hc Hds. unfold set_dandiset. unfold_monad. rewrite Hc, Hds.
  repeat case_step; reflexivity.
Qed.

Lemma bound_then_again
  (a i : string) (k : M Deleter unit) (d : Deleter)
  (c : DandiAPIClient) (ds : RemoteDandiset) :
  client d = Some c -> dandiset d = Some ds ->
  (forall d1, extends d1 (snd (k d1))) ->
  (forall d1, client d1 = Some c -> dandiset d1 = Some ds ->
              k (snd (k d1)) = k d1) ->
  (bound <- set_dandiset E a i ;; if negb bound then ret tt else k)
    (snd ((bound <- set_dandiset E a i ;; if negb bound then ret tt else k) d))
  = (bound <- set_dandiset E a i ;; if negb bound then ret tt else k) d.
Proof.
  intros Hc Hds Hext Hk.
  destruct (set_dandiset_bound a i c ds) as [r Hr].
  rewrite (bound_then E a i k d), (Hr d Hc Hds).
  destruct r as [[|]|e]; simpl.
  - destruct (Hext d) as (_ & _ & _ & Hc' & Hd').
    rewrite bound_then, (Hr _ (Hc' c Hc) (Hd' c ds Hc Hds)).
    now apply Hk.
  - rewrite bound_then, (Hr d Hc Hds). reflexivity.
  - rewrite bound_then, (Hr d Hc Hds). reflexivity.
Qed.

Lemma register_asset_again
  (a i v p : string) (d : Deleter) (c : DandiAPIClient) (ds : RemoteDandiset) :
  client d = Some c -> dandiset d = Some ds ->
  register_asset E a i v p (snd (register_asset E a i v p d))
  = register_asset E a i v p d.
Proof.
  intros Hc Hds. unfold register_asset.
  apply (bound_then_again a i _ d c ds Hc Hds).
  - intros d1. unfold bind, get, ret, raise.
    repeat case_step; try apply extends_refl. apply add_asset_extends.
  - intros d1 Hc1 Hds1. unfold bind, get, ret, raise. rewrite Hds1.
    destruct (get_asset_by_path E ds p) as [e|asset] eqn:Hget.
    + destruct (is_NotFoundError e) eqn:Hnf;
        [destruct (skip_missing d1) eqn:Hs|];
        simpl; rewrite Hds1, Hget, Hnf, ?Hs; reflexivity.
    + destruct (add_asset_extends asset d1) as (_ & _ & _ & _ & Hd').
      rewrite (Hd' c ds Hc1 Hds1), Hget. apply add_asset_again.
Qed.

Lemma register_asset_folder_again
  (a i v p : string) (d : Deleter) (c : DandiAPIClient) (ds : RemoteDandiset) :
  client d = Some c -> dandiset d = Some ds ->
  register_asset_folder E a i v p (snd (register_asset_folder E a i v p d))
  = register_asset_folder E a i v p d.
Proof.
  intros Hc Hds. unfold register_asset_folder.
  apply (bound_then_again a i _ d c ds Hc Hds).
  - intros d1. unfold bind, get, raise.
    case_step; [apply add_all_assets_extends | apply extends_refl].
  - intros d1 Hc1 Hds1. unfold bind, get. rewrite Hds1.
    destruct (add_all_assets_extends
                (get_assets_with_path_prefix E ds p)
                (folder_not_found E p i) d1) as (_ & _ & _ & _ & Hd').
    rewrite (Hd' c ds Hc1 Hds1). apply add_all_assets_again.
Qed.

Lemma register_assets_url_again
  (u : string) (p : ParsedDandiURL) (d : Deleter)
  (c : DandiAPIClient) (ds : RemoteDandiset) :
  client d = Some c -> dandiset d = Some ds ->
  register_assets_url E u p (snd (register_assets_url E u p d))
  = register_assets_url E u p d.
Proof.
  intros Hc Hds. unfold register_assets_url.
  apply (bound_then_again _ _ _ d c ds Hc Hds).
  - intros d1. unfold bind, get. apply add_all_assets_extends.
  - intros d1 Hc1 Hds1. unfold bind, get. rewrite Hc1.
    destruct (add_all_assets_extends (get_assets E p (Some c))
                (url_not_found u) d1) as (_ & _ & _ & Hc' & _).
    rewrite (Hc' c Hc1). apply add_all_assets_again.
Qed.

Lemma register_dandiset_again
  (a i : string) (d : Deleter) (c : DandiAPIClient) (ds : RemoteDandiset) :
  client d = Some c -> dandiset d = Some ds ->
  register_dandiset E a i (snd (register_dandiset E a i d))
  = register_dandiset E a i d.
Proof.
  intros Hc Hds. unfold register_dandiset.
  apply (bound_then_again a i _ d c ds Hc Hds).
  - intros d1. repeat split; simpl; auto. exists []. now rewrite app_nil_r.
  - reflexivity.
Qed.

End Registering_again.

(** On a request bound to a Dandiset, making any registration call a
    second time right after the first gives the result of the first and
    changes nothing more: the same assets are found held, the same error is
    raised again. *)
Theorem registering_twice_is_registering_once
  (E : Env) (op : registration) (d : Deleter)
  (c : DandiAPIClient) (ds : RemoteDandiset) :
  client d = Some c ->
  dandiset d = Some ds ->
  run_registration E op (snd (run_registration E op d))
  = run_registration E op d.
Proof.
  intros Hc Hds. destruct op; simpl.
  - now apply (register_dandiset_again E _ _ d c ds).
  - now apply (register_asset_again E _ _ _ _ d c ds).
  - now apply (register_asset_folder_again E _ _ _ _ d c ds).
  - now apply (register_assets_url_again E _ _ d c ds).
  - unfold register_url.
    destruct (parse_dandi_url E url) as [e|p]; [reflexivity|].
    destruct (is_dandiset_url p).
    + destruct (url_version_id p); [reflexivity|].
      now apply (register_dandiset_again E _ _ d c ds).
    + now apply (register_assets_url_again E _ _ d c ds).
  - unfold register_local_path_equivalent.
    destruct (get_instance E instance_name) as [e|inst]; [reflexivity|].
    destruct (find_local_asset E filepath) as [e|[i p]]; [reflexivity|].
    apply (bound_then_again E _ _ _ d c ds Hc Hds).
    + intros d1. destruct (PyStr.endswith_slash p).
      * apply register_asset_folder_extends.
      * apply register_asset_extends.
    + intros d1 Hc1 Hds1. destruct (PyStr.endswith_slash p).
      * now apply (register_asset_folder_again E _ _ _ _ d1 c ds).
      * now apply (register_asset_again E _ _ _ _ d1 c ds).
Qed.

Lemma registering_twice_is_registering_once_witness :
  run_registration (Demo.env false) (RegisterUrl Demo.folder_url)
    (snd (run_registration (Demo.env false) (RegisterUrl Demo.folder_url)
            (Demo.bound_deleter false)))
  = run_registration (Demo.env false) (RegisterUrl Demo.folder_url)
      (Demo.bound_deleter false).
Proof.
  apply (registering_twice_is_registering_once (Demo.env false)
           (RegisterUrl Demo.folder_url) (Demo.bound_deleter false)
           {| client_api_url := Demo.api |} Demo.ds1); reflexivity.
Defined.

(** ** Local paths *)

Lemma endswith_slash_append (s : string) :
  PyStr.endswith_slash (s ++ "/") = true.
Proof.
  induction s as [|c s IH]; simpl; [reflexivity|].
  destruct (s ++ "/") eqn:Hs; [|exact IH].
  destruct s; discriminate.
Qed.

(** A local path that lies in no Dandiset is refused with the
    [RuntimeError] that names the metadata file, and an unknown instance
    name with the error of [get_instance]; either way before any client is
    made, so the request is left as it was. *)
Theorem local_path_outside_any_dandiset_is_refused
  (E : Env) (instance_name filepath : string) (d : Deleter) :
  (forall e, get_instance E instance_name = inl e ->
     register_local_path_equivalent E instance_name filepath d = (Raise e, d))
  /\ (Dandiset_find E (path_parent E (path_absolute E filepath)) = None ->
      find_local_asset E filepath
      = inl (Exn RuntimeError
               ("Found no " ++ dandiset_metadata_file E
                  ++ " anywhere.  Use 'dandi download' or 'organize' first"))
      /\ forall inst, get_instance E instance_name = inr inst ->
           register_local_path_equivalent E instance_name filepath d
           = (Raise (no_dandiset_found E), d)).
Proof.
  split.
  - intros e He. unfold register_local_path_equivalent. now rewrite He.
  - intros Hfind.
    assert (Hloc : find_local_asset E filepath = inl (no_dandiset_found E))
      by (unfold find_local_asset; now rewrite Hfind).
    split; [exact Hloc|].
    intros inst Hinst. unfold register_local_path_equivalent.
    now rewrite Hinst, Hloc.
Qed.

Lemma local_path_outside_any_dandiset_is_refused_witness :
  register_local_path_equivalent (Demo.env false) "dandi" "/tmp/x.nwb"
    (new_Deleter false)
  = (Raise (Exn RuntimeError
              "Found no dandiset.yaml anywhere.  Use 'dandi download' or 'organize' first"),
     new_Deleter false).
Proof.
  destruct (local_path_outside_any_dandiset_is_refused (Demo.env false)
              "dandi" "/tmp/x.nwb" (new_Deleter false)) as [_ H].
  destruct (H eq_refl) as [_ Hreg].
  apply (Hreg {| instance_api := Demo.api |} eq_refl).
Defined.

(** A local path inside a Dandiset resolves to that Dandiset's identifier
    and the path relative to its root, with a slash added for a directory.
    Once the binder answers [True], a directory is registered as a folder
    and a path that does not end with a slash as a single asset, both at
    the draft version. *)
Theorem local_path_registers_as_folder_or_asset
  (E : Env) (instance_name filepath rel : string)
  (inst : DandiInstance) (lds : LocalDandiset) (d d1 : Deleter) :
  get_instance E instance_name = inr inst ->
  Dandiset_find E (path_parent E (path_absolute E filepath)) = Some lds ->
  path_relative_to E (path_absolute E filepath) (local_path lds) = inr rel ->
  set_dandiset E (instance_api inst) (local_identifier lds) d = (Ok true, d1) ->
  (path_is_dir E (path_absolute E filepath) = true ->
   find_local_asset E filepath = inr (local_identifier lds, rel ++ "/")
   /\ register_local_path_equivalent E instance_name filepath d
      = register_asset_folder E (instance_api inst) (local_identifier lds)
          (DRAFT E) (rel ++ "/") d1)
  /\ (path_is_dir E (path_absolute E filepath) = false ->
      PyStr.endswith_slash rel = false ->
      find_local_asset E filepath = inr (local_identifier lds, rel)
      /\ register_local_path_equivalent E instance_name filepath d
         = register_asset E (instance_api inst) (local_identifier lds)
             (DRAFT E) rel d1).
Proof.
  intros Hinst Hfind Hrel Hset. split.
  - intros Hdir.
    assert (Hloc : find_local_asset E filepath
                   = inr (local_identifier lds, rel ++ "/"))
      by (unfold find_local_asset; now rewrite Hfind, Hrel, Hdir).
    split; [exact Hloc|]. unfold register_local_path_equivalent.
    rewrite Hinst, Hloc, bound_then, Hset. now rewrite endswith_slash_append.
  - intros Hdir Hend.
    assert (Hloc : find_local_asset E filepath
                   = inr (local_identifier lds, rel))
      by (unfold find_local_asset; now rewrite Hfind, Hrel, Hdir).
    split; [exact Hloc|]. unfold register_local_path_equivalent.
    rewrite Hinst, Hloc, bound_then, Hset. now rewrite Hend.
Qed.

Lemma local_path_registers_as_folder_or_asset_witness :
  register_local_path_equivalent (Demo.env false) "dandi" "/data/ds/sub-02/"
    (new_Deleter false)
  = register_asset_folder (Demo.env false) Demo.api "000001" "draft" "sub-02/"
      (set_dandiset_field Demo.ds1
         (set_client {| client_api_url := Demo.api |} (new_Deleter false))).
Proof.
  destruct (local_path_registers_as_folder_or_asset (Demo.env false)
              "dandi" "/data/ds/sub-02/" "sub-02"
              {| instance_api := Demo.api |}
              {| local_identifier := "000001"; local_path := "/data/ds" |}
              (new_Deleter false)
              (set_dandiset_field Demo.ds1
                 (set_client {| client_api_url := Demo.api |}
                    (new_Deleter false)))
              eq_refl eq_refl eq_refl eq_refl) as [Hdir _].
  destruct (Hdir eq_refl) as [_ Hreg]. exact Hreg.
Defined.

(** ** The gate and the two modes of deletion *)

(** When the registrations leave nothing to delete (no path given, or
    every target skipped as missing), [delete] returns without asking
    anything and without a call to the server, forced or not. *)
Theorem nothing_registered_nothing_asked
  (E : Env) (paths : list string) (dandi_instance : string)
  (devel_debug : bool) (jobs : option nat) (force skip : bool)
  (d : Deleter) (t : trace) :
  register_paths E paths dandi_instance (new_Deleter skip) = (Ok tt, d) ->
  Deleter_bool d = false ->
  delete E paths dandi_instance devel_debug jobs force skip t = (Ok tt, t).
Proof.
  intros Hreg Hempty. unfold delete. rewrite Hreg.
  unfold delete_registered. rewrite Hempty. reflexivity.
Qed.

Lemma nothing_registered_nothing_asked_witness :
  delete (Demo.env true) [Demo.missing_dandiset_url] "dandi" false None
    true true []
  = (Ok tt, []).
Proof.
  apply (nothing_registered_nothing_asked (Demo.env true)
           [Demo.missing_dandiset_url] "dandi" false None true true
           (set_client {| client_api_url := Demo.api |} (new_Deleter true)));
    reflexivity.
Defined.

Lemma for_each_stops_at_raise {S A : Type}
  (body : A -> M S unit) (l1 l2 : list A) (x : A) (e : exn) (s s1 s2 : S) :
  for_each l1 body s = (Ok tt, s1) ->
  body x s1 = (Raise e, s2) ->
  for_each (l1 ++ x :: l2) body s = (Raise e, s2).
Proof.
  revert s. induction l1 as [|y l1 IH]; intros s Hl1 Hx; simpl in *.
  - unfold ret in Hl1. injection Hl1 as <-. unfold bind. now rewrite Hx.
  - unfold bind in *. destruct (body y s) as [[[]|e'] s'].
    + now apply IH.
    + discriminate.
Qed.

(** Registration is fail-fast: when the registration of one path raises,
    the paths after it are not looked at, [delete] raises the same
    exception, and nothing was asked or deleted. *)
Theorem failed_registration_aborts_delete
  (E : Env) (before after : list string) (p dandi_instance : string)
  (devel_debug : bool) (jobs : option nat) (force skip : bool)
  (e : exn) (d1 d2 : Deleter) (t : trace) :
  register_paths E before dandi_instance (new_Deleter skip) = (Ok tt, d1) ->
  register_paths E [p] dandi_instance d1 = (Raise e, d2) ->
  register_paths E (before ++ p :: after) dandi_instance (new_Deleter skip)
  = (Raise e, d2)
  /\ delete E (before ++ p :: after) dandi_instance devel_debug jobs force
       skip t
     = (Raise e, t).
Proof.
  intros Hbefore Hp.
  assert (Hall : register_paths E (before ++ p :: after) dandi_instance
                   (new_Deleter skip) = (Raise e, d2)).
  { unfold register_paths in *.
    apply (for_each_stops_at_raise _ before after p e _ d1 d2 Hbefore).
    simpl in Hp. unfold bind, ret in Hp. cbv beta.
    destruct (is_url E p).
    - destruct (register_url E p d1) as [[[]|e'] s']; congruence.
    - destruct (register_local_path_equivalent E dandi_instance p d1)
        as [[[]|e'] s']; congruence. }
  split; [exact Hall|]. unfold delete. now rewrite Hall.
Qed.

Lemma failed_registration_aborts_delete_witness :
  delete (Demo.env true)
    ([Demo.folder_url] ++ Demo.other_dandiset_url :: [Demo.file_url])
    "dandi" true None true false []
  = (Raise mixing_dandisets, []).
Proof.
  apply (failed_registration_aborts_delete (Demo.env true)
           [Demo.folder_url] [Demo.file_url] Demo.other_dandiset_url "dandi"
           true None true false mixing_dandisets
           (set_remote_assets [Demo.a1; Demo.a2]
              (Demo.bound_deleter false))
           (set_remote_assets [Demo.a1; Demo.a2]
              (Demo.bound_deleter false)));
    reflexivity.
Defined.

(** Without [force], a non-empty request is put to the user once, with
    the Dandiset's identifier and, for assets, their number after
    deduplication; when the answer is yes the run goes on exactly as a
    forced one. *)
Theorem accepted_confirmation_runs_as_forced
  (E : Env) (d : Deleter) (ds : RemoteDandiset)
  (devel_debug : bool) (jobs : option nat) (t : trace) :
  Deleter_bool d = true ->
  dandiset d = Some ds ->
  click_confirm E (confirm_msg d ds) = true ->
  delete_registered E d devel_debug jobs false t
  = delete_registered E d devel_debug jobs true
      (t ++ [EvConfirm (confirm_msg d ds)])%list
  /\ confirm_msg d ds
     = (if deleting_dandiset d then
          "Delete Dandiset " ++ dandiset_identifier ds ++ "?"
        else
          "Delete " ++ PyStr.str_of_nat (List.length (remote_assets d))
            ++ " assets on server from Dandiset "
            ++ dandiset_identifier ds ++ "?").
Proof.
  intros Hne Hds Hyes. split; [|reflexivity].
  unfold delete_registered, confirm. rewrite Hne, Hds.
  unfold log. unfold_monad. now rewrite Hyes.
Qed.

Lemma accepted_confirmation_runs_as_forced_witness :
  delete_registered (Demo.env true) (Demo.bound_deleter false) true None
    false []
  = delete_registered (Demo.env true) (Demo.bound_deleter false) true None
      true [EvConfirm "Delete 1 assets on server from Dandiset 000001?"].
Proof.
  apply (accepted_confirmation_runs_as_forced (Demo.env true)
           (Demo.bound_deleter false) Demo.ds1 true None []);
    reflexivity.
Defined.

(** When the whole Dandiset is registered, a run sends one request, the
    deletion of the Dandiset, whatever assets are registered beside it; no
    asset is deleted one by one, and the failure of that request is the
    failure of the run. *)
Theorem whole_dandiset_deletion_bypasses_assets
  (E : Env) (d : Deleter) (ds : RemoteDandiset)
  (devel_debug : bool) (jobs : option nat) (t : trace) :
  deleting_dandiset d = true ->
  dandiset d = Some ds ->
  delete_registered E d devel_debug jobs true t
  = (match dandiset_delete E ds with
     | Some e => Raise e
     | None => Ok tt
     end, (t ++ [EvDeleteDandiset ds])%list).
Proof.
  intros Hdd Hds. unfold delete_registered, Deleter_bool, delete_dandiset.
  rewrite Hdd, Hds. unfold log. unfold_monad.
  now destruct (dandiset_delete E ds).
Qed.

Lemma whole_dandiset_deletion_bypasses_assets_witness :
  delete (Demo.env false) [Demo.folder_url; Demo.dandiset_url] "dandi"
    true None true false []
  = (Ok tt, [EvDeleteDandiset Demo.ds1]).
Proof.
  unfold delete. simpl.
  apply (whole_dandiset_deletion_bypasses_assets (Demo.env false)
           (set_deleting_dandiset true
              (set_remote_assets [Demo.a1; Demo.a2]
                 (Demo.bound_deleter false)))
           Demo.ds1 true None []); reflexivity.
Defined.

(** ** The order of a batch *)

Lemma insert_by_path_HdRel (x a : RemoteAsset) (l : list RemoteAsset) :
  by_path x a -> HdRel by_path x l -> HdRel by_path x (insert_by_path a l).
Proof.
  intros Hxa Hl. destruct l as [|b l]; simpl; [now constructor|].
  destruct (String.leb (asset_path a) (asset_path b)); constructor;
    [exact Hxa | now inversion Hl].
Qed.

Lemma insert_by_path_Sorted (a : RemoteAsset) (l : list RemoteAsset) :
  Sorted by_path l -> Sorted by_path (insert_by_path a l).
Proof.
  induction l as [|b l IH]; intros Hl; simpl.
  - repeat constructor.
  - destruct (String.leb (asset_path a) (asset_path b)) eqn:Hab.
    + constructor; [exact Hl | now constructor].
    + apply Sorted_inv in Hl. destruct Hl as [Hl Hb].
      constructor; [now apply IH|].
      apply insert_by_path_HdRel; [|exact Hb].
      destruct (String.leb_total (asset_path a) (asset_path b)) as [H|H];
        [congruence | exact H].
Qed.

Lemma sorted_by_path_Sorted (l : list RemoteAsset) :
  Sorted by_path (sorted_by_path l).
Proof.
  induction l as [|a l IH]; simpl; [constructor|].
  now apply insert_by_path_Sorted.
Qed.

Lemma leb_false_paths_differ (a b : RemoteAsset) :
  String.leb (asset_path a) (asset_path b) = false ->
  asset_path a <> asset_path b.
Proof.
  intros Hab Heq. rewrite Heq in Hab.
  destruct (String.leb_total (asset_path b) (asset_path b)); congruence.
Qed.

Lemma insert_by_path_stable (k : string) (a : RemoteAsset)
  (l : list RemoteAsset) :
  filter (fun x => String.eqb (asset_path x) k) (insert_by_path a l)
  = filter (fun x => String.eqb (asset_path x) k) (a :: l).
Proof.
  induction l as [|b l IH]; simpl; [reflexivity|].
  destruct (String.leb (asset_path a) (asset_path b)) eqn:Hab;
    [reflexivity|].
  simpl. rewrite IH. simpl.
  apply leb_false_paths_differ in Hab.
  destruct (String.eqb_spec (asset_path a) k) as [Ha|Ha];
    destruct (String.eqb_spec (asset_path b) k) as [Hb|Hb];
    try reflexivity; congruence.
Qed.

(** A forced run in debug mode goes through the assets in ascending order
    of path.  When no deletion raises anything but an [Exception], it ends
    normally, having printed for each asset the Deleting record, called
    [delete], and printed the Deleted or Error record.  When a deletion
    raises something else, the run stops there with that exception: the
    asset's Deleting record and the call are the last it did, and the
    assets after it are not attempted. *)
Theorem debug_run_goes_through_assets_in_path_order
  (E : Env) (d : Deleter) (jobs : option nat) (t : trace) :
  deleting_dandiset d = false ->
  remote_assets d <> [] ->
  exists order : list RemoteAsset,
    Permutation order (remote_assets d)
    /\ Sorted by_path order
    /\ ((forall a, In a (remote_assets d) -> caught E a = true) ->
        delete_registered E d true jobs true t
        = (Ok tt, (t ++ flat_map (asset_events E) order)%list))
    /\ (forall (before after : list RemoteAsset) (a : RemoteAsset) (e : exn),
          order = (before ++ a :: after)%list ->
          (forall b, In b before -> caught E b = true) ->
          asset_delete E a = Some e ->
          is_Exception e = false ->
          delete_registered E d true jobs true t
          = (Raise e,
             (t ++ flat_map (asset_events E) before
                ++ interrupted_events a)%list)).
Proof.
  intros Hdd Hne. exists (sorted_by_path (remote_assets d)).
  split; [apply sorted_by_path_Permutation|].
  split; [apply sorted_by_path_Sorted|]. split.
  - intros Hall. now apply delete_registered_assets.
  - intros before after a e Horder Hbefore Ha He.
    rewrite (forced_run_over_assets E d true jobs t Hdd Hne).
    unfold process_assets_debug. rewrite Horder.
    now apply debug_loop_interrupted.
Qed.

Lemma debug_run_goes_through_assets_in_path_order_witness :
  delete_registered interrupting_env
    (set_remote_assets [Demo.a3; Demo.a2] (Demo.bound_deleter false))
    true None true []
  = (Raise keyboard_interrupt,
     [EvPrint [("path", "sub-01/anat.nwb"); ("status", "Deleting")];
      EvDeleteAsset Demo.a2]).
Proof.
  destruct (debug_run_goes_through_assets_in_path_order interrupting_env
              (set_remote_assets [Demo.a3; Demo.a2] (Demo.bound_deleter false))
              None [] eq_refl)
    as (order & Hperm & Hsorted & _ & Hstop).
  - discriminate.
  - assert (Horder : order = [Demo.a2; Demo.a3]).
    { apply Permutation_sym in Hperm.
      apply Permutation_length_2_inv in Hperm.
      destruct Hperm as [->| ->]; [|reflexivity].
      apply Sorted_inv in Hsorted. destruct Hsorted as [_ Hhd].
      apply HdRel_inv in Hhd. unfold by_path in Hhd. simpl in Hhd.
      discriminate. }
    apply (Hstop [] [Demo.a3] Demo.a2 keyboard_interrupt Horder).
    + intros b [].
    + reflexivity.
    + reflexivity.
Defined.

(** The sort by path is stable: assets that share a path are deleted in
    the order they were registered in. *)
Theorem assets_of_one_path_keep_their_order
  (k : string) (l : list RemoteAsset) :
  filter (fun x => String.eqb (asset_path x) k) (sorted_by_path l)
  = filter (fun x => String.eqb (asset_path x) k) l.
Proof.
  induction l as [|a l IH]; simpl; [reflexivity|].
  rewrite insert_by_path_stable. simpl. now rewrite IH.
Qed.

(** When no deletion raises anything but an [Exception], a forced run
    over assets accounts for every asset once.  In debug mode it ends
    normally; the Error records printed are those of the assets whose
    deletion failed, the Deleted records those of the others, each in path
    order, together as many as the assets, and there is no Error record
    when no deletion fails.  In the default mode the rows handed to the
    table are one per asset in path order, and their generators, once run,
    give the records the debug mode prints, call [delete] on the same
    assets and let no exception out. *)
Theorem every_asset_ends_deleted_or_in_error
  (E : Env) (d : Deleter) (jobs : option nat) :
  deleting_dandiset d = false ->
  remote_assets d <> [] ->
  (forall a, In a (remote_assets d) -> caught E a = true) ->
  let shown := records (snd (delete_registered E d true jobs true [])) in
  let rows :=
    submitted_rows (snd (delete_registered E d false jobs true [])) in
  let order := sorted_by_path (remote_assets d) in
  fst (delete_registered E d true jobs true []) = Ok tt
  /\ filter (has_status "Error") shown
     = map (error_row E) (filter (fails E) order)
  /\ filter (has_status "Deleted") shown
     = map deleted_row (filter (fun a => negb (fails E a)) order)
  /\ List.length (filter (has_status "Error") shown)
     + List.length (filter (has_status "Deleted") shown)
     = List.length (remote_assets d)
  /\ ((forall a, In a (remote_assets d) -> asset_delete E a = None) ->
      filter (has_status "Error") shown = [])
  /\ fst (delete_registered E d false jobs true []) = Ok tt
  /\ map row_path rows = map asset_path order
  /\ flat_map row_records rows = shown
  /\ flat_map row_calls rows = order
  /\ flat_map row_escapes rows = [].
Proof.
  intros Hdd Hne Hcaught shown rows order. subst shown rows.
  rewrite (delete_registered_assets E d jobs [] Hdd Hne Hcaught).
  rewrite (forced_run_over_assets E d false jobs [] Hdd Hne).
  cbn [fst snd app]. fold order.
  destruct (batch_records E order) as (Hdel & Herr & _).
  assert (Hsorted : forall b, In b order -> caught E b = true).
  { intros b Hb. apply Hcaught.
    apply (Permutation_in b (sorted_by_path_Permutation (remote_assets d))).
    exact Hb. }
  assert (Hrows :
    submitted_rows
      (EvTableOpen rec_fields jobs
         :: map EvTableRow (process_assets_pyout E d) ++ [EvTableClose])%list
    = process_assets_pyout E d).
  { unfold submitted_rows. cbn [flat_map app]. rewrite flat_map_app.
    cbn [flat_map]. rewrite app_nil_r.
    induction (process_assets_pyout E d) as [|r l IH]; [reflexivity|].
    cbn [map flat_map app]. now rewrite IH. }
  rewrite Hrows.
  destruct (rows_match_debug E order Hsorted) as (Hrec & Hrc & Hesc).
  split; [reflexivity|]. split; [exact Herr|]. split; [exact Hdel|].
  split; [|split; [|split; [|split; [|split; [|split]]]]].
  - rewrite Herr, Hdel, !length_map.
    rewrite <- (Permutation_length (sorted_by_path_Permutation (remote_assets d))).
    fold order. clear. induction order as [|a l IH]; simpl; [reflexivity|].
    destruct (fails E a); simpl; lia.
  - intros Hall. rewrite Herr.
    assert (Hall' : forall b, In b order -> asset_delete E b = None).
    { intros b Hb. apply Hall.
      apply (Permutation_in b (sorted_by_path_Permutation (remote_assets d))).
      exact Hb. }
    destruct (filter_fails_none E order Hall') as [-> _]. reflexivity.
  - reflexivity.
  - unfold process_assets_pyout. fold order. rewrite map_map. reflexivity.
  - exact Hrec.
  - exact Hrc.
  - exact Hesc.
Qed.

Lemma every_asset_ends_deleted_or_in_error_witness :
  List.length
    (filter (has_status "Error")
       (records
          (snd (delete_registered (Demo.env false)
                  (set_remote_assets [Demo.a1; Demo.a2; Demo.a3]
                     (Demo.bound_deleter false)) true None true []))))
  + List.length
      (filter (has_status "Deleted")
         (records
            (snd (delete_registered (Demo.env false)
                    (set_remote_assets [Demo.a1; Demo.a2; Demo.a3]
                       (Demo.bound_deleter false)) true None true []))))
  = 3.
Proof.
  destruct (every_asset_ends_deleted_or_in_error (Demo.env false)
              (set_remote_assets [Demo.a1; Demo.a2; Demo.a3]
                 (Demo.bound_deleter false)) None eq_refl)
    as (_ & _ & _ & Hcount & _).
  - discriminate.
  - intros a [<-|[<-|[<-|[]]]]; reflexivity.
  - exact Hcount.
Defined.

(** ** The validation commands *)

Lemma emit_all {A : Type} (f : A -> output) (l : list A) (t : console) :
  for_each l (fun x => emit (f x)) t = (Ok tt, (t ++ map f l)%list).
Proof.
  revert t. induction l as [|x l IH]; intros t; simpl.
  - unfold ret. now rewrite app_nil_r.
  - unfold bind, emit, modify. rewrite IH. now rewrite <- app_assoc.
Qed.

Lemma zip3_length {A B C : Type} (a : list A) (b : list B) (c : list C) :
  List.length (zip3 a b c)
  = Nat.min (List.length a) (Nat.min (List.length b) (List.length c)).
Proof.
  revert b c. induction a as [|x a IH]; intros [|y b] [|z c]; simpl;
    try reflexivity.
  now rewrite IH.
Qed.

Lemma zip3_repeat {A B C : Type} (x : A) (y : B) (c : list C) :
  zip3 (repeat x (List.length c)) (repeat y (List.length c)) c
  = map (fun z => (x, y, z)) c.
Proof.
  induction c as [|z c IH]; simpl; [reflexivity|]. now rewrite IH.
Qed.

Lemma for_each_ext {S A : Type} (f g : A -> M S unit) (l : list A) (s : S) :
  (forall x s', f x s' = g x s') -> for_each l f s = for_each l g s.
Proof.
  intros Hfg. revert s. induction l as [|x l IH]; intros s; simpl;
    [reflexivity|].
  unfold bind. rewrite Hfg. destruct (g x s) as [[u|e] s']; [apply IH|easy].
Qed.

Section Validate_facts.

Variable V : ValidateEnv.

Lemma secho_known (text : string) (bold : bool) (fg : string) :
  existsb (String.eqb fg) click_colors = true ->
  secho text bold fg = emit (Secho text bold fg).
Proof. unfold secho. now intros ->. Qed.

Lemma display_errors_run
  (scope : string) (errors : list string) (severities : list severity)
  (messages : list string) (t : console) :
  let summary :=
    scope ++ ": " ++ pluralize V (List.length errors) "issue" ++ " detected." in
  let lines := map error_line (zip3 errors severities messages) in
  display_errors V scope errors severities messages t
  = if existsb is_ERROR severities then
      (Ok tt, (t ++ Secho summary false "red" :: lines)%list)
    else if existsb is_WARNING severities then
      (Raise (unknown_color "orange"), t)
    else (Ok tt, (t ++ Secho summary false "blue" :: lines)%list).
Proof.
  intros summary lines. unfold display_errors. fold summary.
  assert (Hlines : forall t',
    for_each (zip3 errors severities messages)
      (fun esm =>
         let '(error, severity, message) := esm in
         secho ("  [" ++ error ++ "] " ++ message) false
           match severity with
           | ERROR => "red"
           | WARNING => "green"
           | OtherSeverity _ => "blue"
           end) t'
    = (Ok tt, (t' ++ lines)%list)).
  { intros t'.
    rewrite (for_each_ext _ (fun esm => emit (error_line esm)))
      by (intros [[e [| |b]] m] s'; reflexivity).
    apply emit_all. }
  unfold bind.
  destruct (existsb is_ERROR severities);
    [|destruct (existsb is_WARNING severities)].
  - rewrite secho_known by reflexivity. unfold emit, modify.
    rewrite Hlines. now rewrite <- app_assoc.
  - reflexivity.
  - rewrite secho_known by reflexivity. unfold emit, modify.
    rewrite Hlines. now rewrite <- app_assoc.
Qed.

Lemma nonempty_filter {A : Type} (f : A -> bool) (l : list A) :
  nonempty (filter f l) = existsb f l.
Proof.
  induction l as [|x l IH]; simpl; [reflexivity|].
  destruct (f x); [reflexivity | exact IH].
Qed.

(** The console and the result of [validate_bids], in closed form. *)
Lemma validate_bids_run
  (paths : list string) (schema : option string) (report : bool)
  (report_path : option string) (results : list ValidationResult)
  (t : console) :
  validate_bids_ V paths report report_path schema = inr results ->
  validate_bids V paths schema report report_path t
  = (if existsb (fun r => is_WARNING (vr_severity r)) results
     then Raise (unknown_color "orange")
     else if existsb (fun r => is_ERROR (vr_severity r)) results
          then Raise SystemExit_1 else Ok tt,
     (t ++ flat_map (bids_lines V) (before_WARNING results))%list).
Proof.
  intros Hres. unfold validate_bids. rewrite Hres. unfold bind at 1.
  match goal with |- context [for_each results ?b] => set (body := b) end.
  assert (Hloop : forall l t',
    for_each l body t'
    = (if existsb (fun r => is_WARNING (vr_severity r)) l
       then Raise (unknown_color "orange") else Ok tt,
       (t' ++ flat_map (bids_lines V) (before_WARNING l))%list)).
  { induction l as [|r l IH]; intros t'.
    - simpl. unfold ret. now rewrite app_nil_r.
    - cbn [for_each existsb before_WARNING]. unfold bind.
      assert (Hbody :
        body r t'
        = if is_WARNING (vr_severity r)
          then (Raise (unknown_color "orange"), t')
          else (Ok tt, (t' ++ bids_lines V r)%list)).
      { subst body. cbv beta. unfold bids_lines.
        destruct (vr_severity r) as [| |[|]]; cbn [severity_truth negb];
          try rewrite display_errors_run; cbn [existsb is_ERROR is_WARNING orb];
          try (unfold ret; now rewrite app_nil_r);
          destruct (vr_path r), (vr_path_regex r); reflexivity. }
      rewrite Hbody.
      destruct (is_WARNING (vr_severity r)).
      + cbn [orb flat_map]. now rewrite app_nil_r.
      + rewrite IH. cbn [orb flat_map]. now rewrite <- app_assoc. }
  rewrite Hloop, nonempty_filter.
  destruct (existsb (fun r => is_WARNING (vr_severity r)) results);
    [reflexivity|].
  now destruct (existsb (fun e => is_ERROR (vr_severity e)) results).
Qed.

Lemma no_ERROR_in_repeat (n : nat) :
  existsb is_ERROR (repeat (OtherSeverity false) n) = false
  /\ existsb is_WARNING (repeat (OtherSeverity false) n) = false.
Proof.
  induction n as [|n [IH1 IH2]]; simpl; auto.
Qed.

Lemma validate_loop_run
  (files acc : list (string * list string)) (n : nat) (t : console) :
  validate_loop V "one-at-a-time" files acc n t
  = (Ok (fold_left record_report files acc, n + List.length files),
     (t ++ flat_map (nwb_lines V) files)%list).
Proof.
  revert acc n t. induction files as [|[p errs] files IH]; intros acc n t.
  - simpl. unfold ret. now rewrite app_nil_r, Nat.add_0_r.
  - cbn [validate_loop]. unfold bind.
    assert (Hshow :
      (if String.eqb "one-at-a-time" "one-at-a-time" && nonempty errs
       then display_errors V p (repeat "NWBError" (List.length errs))
              (repeat (OtherSeverity false) (List.length errs)) errs
       else ret tt) t
      = (Ok tt, (t ++ nwb_lines V (p, errs))%list)).
    { unfold nwb_lines. simpl fst. simpl snd.
      destruct errs as [|e errs]; [simpl; unfold ret; now rewrite app_nil_r|].
      cbn [String.eqb Ascii.eqb Bool.eqb andb nonempty].
      rewrite display_errors_run.
      destruct (no_ERROR_in_repeat (List.length (e :: errs))) as [-> ->].
      rewrite zip3_repeat, map_map, repeat_length. reflexivity. }
    rewrite Hshow, IH. cbn [flat_map fold_left List.length].
    rewrite <- app_assoc. unfold record_report at 2. simpl fst. simpl snd.
    do 2 f_equal. f_equal. lia.
Qed.

(** The console of [validate], in closed form. *)
Lemma validate_run
  (paths : list string) (schema : option string)
  (devel_debug allow_any_path : bool) (t : console) :
  let reports :=
    validate_ V (if nonempty paths then paths else [curdir]) schema
      devel_debug allow_any_path in
  let shown :=
    (t ++ map AddFilter (root_handlers V) ++ [IgnoreBenignWarnings]
       ++ flat_map (nwb_lines V) (reported reports))%list in
  let k :=
    List.length
      (filter (fun fe => nonempty (snd fe))
         (fold_left record_report (reported reports) [])) in
  let n := List.length (reported reports) in
  validate V paths schema devel_debug allow_any_path t
  = match broke reports with
    | Some e => (Raise e, shown)
    | None =>
        if Nat.eqb k 0 then
          (Ok tt,
           (shown ++ [Secho ("Summary: No validation errors among "
                               ++ PyStr.str_of_nat n ++ " file(s)")
                        true "green"])%list)
        else
          (Raise SystemExit_1,
           (shown ++ [Secho ("Summary: Validation errors in "
                               ++ PyStr.str_of_nat k ++ " out of "
                               ++ PyStr.str_of_nat n ++ " files")
                        true "red"])%list)
    end.
Proof.
  intros reports shown k n. unfold validate. unfold bind at 1.
  rewrite emit_all. unfold bind at 1. unfold emit at 1. unfold modify.
  unfold bind at 1. fold reports. rewrite validate_loop_run.
  cbn [Nat.add]. fold n.
  assert (Hshown :
    (((t ++ map AddFilter (root_handlers V)) ++ [IgnoreBenignWarnings])
       ++ flat_map (nwb_lines V) (reported reports))%list = shown)
    by (subst shown; now rewrite <- !app_assoc).
  rewrite Hshown.
  destruct (broke reports) as [e|]; [reflexivity|].
  cbn [String.eqb Ascii.eqb Bool.eqb].
  rewrite length_map. subst k.
  destruct (filter (fun fe => nonempty (snd fe))
              (fold_left record_report (reported reports) [])) as [|x l];
    reflexivity.
Qed.

End Validate_facts.

(** *** The dict of reports *)

Lemma dict_set_keys {A : Type} (k : string) (v : A) (d : list (string * A))
  (x : string) :
  In x (map fst (dict_set k v d)) <-> x = k \/ In x (map fst d).
Proof.
  induction d as [|[k0 v0] d IH]; simpl.
  - intuition.
  - destruct (String.eqb_spec k0 k) as [->|Hk]; simpl; [intuition|].
    rewrite IH. intuition.
Qed.

Lemma dict_set_NoDup {A : Type} (k : string) (v : A) (d : list (string * A)) :
  NoDup (map fst d) -> NoDup (map fst (dict_set k v d)).
Proof.
  induction d as [|[k0 v0] d IH]; simpl; intros Hd.
  - repeat constructor. intros [].
  - inversion Hd as [|? ? Hk0 Hd']; subst.
    destruct (String.eqb_spec k0 k) as [->|Hk]; simpl.
    + now constructor.
    + constructor; [|now apply IH].
      rewrite dict_set_keys. intros [H|H]; [congruence | contradiction].
Qed.

Lemma dict_set_In {A : Type} (k : string) (v : A) (d : list (string * A))
  (k' : string) (v' : A) :
  NoDup (map fst d) ->
  In (k', v') (dict_set k v d)
  <-> (k' = k /\ v' = v) \/ (k' <> k /\ In (k', v') d).
Proof.
  induction d as [|[k0 v0] d IH]; simpl; intros Hd.
  - split.
    + intros [H|[]]. injection H as <- <-. now left.
    + intros [[-> ->]|[_ []]]. now left.
  - inversion Hd as [|? ? Hk0 Hd']; subst.
    destruct (String.eqb_spec k0 k) as [->|Hk]; simpl.
    + split.
      * intros [H|H]; [injection H as <- <-; now left|].
        right. split; [|now right]. intros ->. apply Hk0.
        apply (in_map fst) in H. exact H.
      * intros [[-> ->]|[Hne [H|H]]]; [now left | | now right].
        injection H as <- _. congruence.
    + rewrite (IH Hd'). split.
      * intros [H|[H|[Hne H]]].
        -- injection H as <- <-. right. split; [congruence | now left].
        -- now left.
        -- right. split; [exact Hne | now right].
      * intros [H|[Hne [H|H]]]; [right; now left | now left |].
        right. right. now split.
Qed.

Lemma dict_set_length {A : Type} (k : string) (v : A) (d : list (string * A)) :
  List.length (dict_set k v d) <= S (List.length d).
Proof.
  induction d as [|[k0 v0] d IH]; simpl; [lia|].
  destruct (String.eqb k0 k); simpl; lia.
Qed.

Lemma reports_dict_length
  (reports acc : list (string * list string)) :
  List.length (fold_left record_report reports acc)
  <= List.length acc + List.length reports.
Proof.
  revert acc. induction reports as [|fe reports IH]; intros acc; simpl;
    [lia|].
  specialize (IH (record_report acc fe)).
  pose proof (dict_set_length (fst fe) (snd fe) acc). unfold record_report in *.
  lia.
Qed.

Lemma reports_dict_In
  (reports acc : list (string * list string)) (k : string) (v : list string) :
  NoDup (map fst acc) ->
  NoDup (map fst (fold_left record_report reports acc))
  /\ (In (k, v) (fold_left record_report reports acc)
      <-> last_report k reports = Some v
          \/ (last_report k reports = None /\ In (k, v) acc)).
Proof.
  revert acc. induction reports as [|[q e] reports IH]; intros acc Hacc.
  - simpl. split; [exact Hacc|]. split; [now right|].
    intros [H|[_ H]]; [discriminate | exact H].
  - cbn [fold_left last_report].
    destruct (IH (record_report acc (q, e))
                (dict_set_NoDup q e acc Hacc)) as [Hnd Hin].
    split; [exact Hnd|]. rewrite Hin. unfold record_report. simpl fst.
    simpl snd. rewrite (dict_set_In q e acc k v Hacc).
    destruct (last_report k reports) as [later|].
    + split; intros [H|[H _]]; try discriminate; now left.
    + destruct (String.eqb_spec q k) as [->|Hqk].
      * split.
        -- intros [H|[_ [[_ ->]|[Hne _]]]];
             [discriminate | now left | congruence].
        -- intros [H|[H _]]; [|discriminate]. injection H as ->.
           right. split; [reflexivity|]. now left.
      * split.
        -- intros [H|[_ [[-> _]|[_ H]]]];
             [discriminate | congruence | now right].
        -- intros [H|[_ H]]; [discriminate|].
           right. split; [reflexivity|]. right. split; [congruence | exact H].
Qed.

Lemma reports_dict_when_distinct
  (reports acc : list (string * list string)) :
  NoDup (map fst (acc ++ reports)) ->
  fold_left record_report reports acc = (acc ++ reports)%list.
Proof.
  revert acc. induction reports as [|[q e] reports IH]; intros acc Hnd; simpl.
  - now rewrite app_nil_r.
  - assert (Hset : record_report acc (q, e) = (acc ++ [(q, e)])%list).
    { unfold record_report. simpl.
      assert (Hq : ~ In q (map fst acc)).
      { rewrite map_app in Hnd. simpl in Hnd.
        apply NoDup_remove_2 in Hnd. intros H. apply Hnd.
        apply in_or_app. now left. }
      clear -Hq. induction acc as [|[k0 v0] acc IHa]; simpl; [reflexivity|].
      destruct (String.eqb_spec k0 q) as [->|Hk].
      - elim Hq. now left.
      - rewrite IHa; [reflexivity|]. intros H. apply Hq. now right. }
    rewrite Hset, IH; rewrite <- app_assoc; [reflexivity | exact Hnd].
Qed.

(** *** What the commands show and how they end *)

Lemma existsb_is_ERROR (l : list severity) :
  existsb is_ERROR l = true <-> In ERROR l.
Proof.
  rewrite existsb_exists. split.
  - intros [s [Hin Hs]]. now destruct s.
  - intros Hin. now exists ERROR.
Qed.

Lemma existsb_is_WARNING (l : list severity) :
  existsb is_WARNING l = true <-> In WARNING l.
Proof.
  rewrite existsb_exists. split.
  - intros [s [Hin Hs]]. now destruct s.
  - intros Hin. now exists WARNING.
Qed.

(** [display_errors] prints the summary, which counts all of [errors],
    then one line per triple of the zip of its three lists, so as many
    lines as the shortest list is long: in red when an ERROR is among the
    severities, in blue when neither ERROR nor WARNING is.  When a WARNING
    is among them and no ERROR, the colour it asks for is "orange", which
    click does not know: it raises [TypeError] and prints nothing. *)
Theorem display_errors_prints_summary_then_zipped_lines
  (V : ValidateEnv) (scope : string) (errors : list string)
  (severities : list severity) (messages : list string) (t : console) :
  let summary :=
    scope ++ ": " ++ pluralize V (List.length errors) "issue" ++ " detected." in
  let run := display_errors V scope errors severities messages t in
  (In ERROR severities ->
   exists lines,
     run = (Ok tt, (t ++ Secho summary false "red" :: lines)%list)
     /\ List.length lines
        = Nat.min (List.length errors)
            (Nat.min (List.length severities) (List.length messages)))
  /\ (~ In ERROR severities -> In WARNING severities ->
      run = (Raise (Exn (OtherError "TypeError") "Unknown color 'orange'"), t))
  /\ (~ In ERROR severities -> ~ In WARNING severities ->
      exists lines,
        run = (Ok tt, (t ++ Secho summary false "blue" :: lines)%list)
        /\ List.length lines
           = Nat.min (List.length errors)
               (Nat.min (List.length severities) (List.length messages))).
Proof.
  intros summary run. subst run.
  pose proof (display_errors_run V scope errors severities messages t) as Hrun.
  cbv zeta in Hrun. fold summary in Hrun.
  pose proof (existsb_is_ERROR severities) as He.
  pose proof (existsb_is_WARNING severities) as Hw.
  destruct (existsb is_ERROR severities), (existsb is_WARNING severities).
  - split; [|split].
    + intros _. eexists. split; [exact Hrun|].
      now rewrite length_map, zip3_length.
    + intros Hno. elim Hno. now apply He.
    + intros Hno. elim Hno. now apply He.
  - split; [|split].
    + intros _. eexists. split; [exact Hrun|].
      now rewrite length_map, zip3_length.
    + intros Hno. elim Hno. now apply He.
    + intros Hno. elim Hno. now apply He.
  - split; [|split].
    + intros H. apply He in H. discriminate.
    + intros _ _. exact Hrun.
    + intros _ Hno. elim Hno. now apply Hw.
  - split; [|split].
    + intros H. apply He in H. discriminate.
    + intros _ H. apply Hw in H. discriminate.
    + intros _ _. eexists. split; [exact Hrun|].
      now rewrite length_map, zip3_length.
Qed.

Lemma display_errors_prints_summary_then_zipped_lines_witness :
  display_errors demo_validators "ds/sub-01" ["BIDS.X"] [WARNING] ["odd name"] []
  = (Raise (Exn (OtherError "TypeError") "Unknown color 'orange'"), []).
Proof.
  destruct (display_errors_prints_summary_then_zipped_lines demo_validators
              "ds/sub-01" ["BIDS.X"] [WARNING] ["odd name"] [])
    as (_ & Hwarn & _).
  apply Hwarn.
  - intros [H|[]]. discriminate.
  - left. reflexivity.
Defined.

(** [validate_bids] passes on a failure of the validator with nothing
    shown.  Otherwise it goes through the results in order, showing
    nothing of a result without severity and two lines of an ERROR (red)
    or of another severity (blue), until it meets a WARNING: there it
    raises the [TypeError] of the unknown colour "orange", whatever else
    the results hold.  With no WARNING among the results it shows them all
    and then exits with status 1 exactly when one of them is an ERROR. *)
Theorem validate_bids_shows_findings_then_exits_on_ERROR
  (V : ValidateEnv) (paths : list string) (schema : option string)
  (report : bool) (report_path : option string) (t : console) :
  (forall e,
     validate_bids_ V paths report report_path schema = inl e ->
     validate_bids V paths schema report report_path t = (Raise e, t))
  /\ (forall results,
        validate_bids_ V paths report report_path schema = inr results ->
        let run := validate_bids V paths schema report report_path t in
        snd run = (t ++ flat_map (bids_lines V) (before_WARNING results))%list
        /\ ((exists r, In r results /\ vr_severity r = WARNING) ->
            fst run = Raise (unknown_color "orange"))
        /\ ((forall r, In r results -> vr_severity r <> WARNING) ->
            before_WARNING results = results
            /\ (fst run = Raise SystemExit_1
                <-> exists r, In r results /\ vr_severity r = ERROR)
            /\ (fst run = Ok tt
                <-> forall r, In r results -> vr_severity r <> ERROR))).
Proof.
  split.
  - intros e He. unfold validate_bids. now rewrite He.
  - intros results Hres run. subst run.
    rewrite (validate_bids_run V paths schema report report_path results t Hres).
    cbn [fst snd]. split; [reflexivity|].
    assert (Hw : existsb (fun r => is_WARNING (vr_severity r)) results = true
                 <-> exists r, In r results /\ vr_severity r = WARNING).
    { rewrite existsb_exists. split; intros [r [Hin Hr]]; exists r;
        split; auto.
      - now destruct (vr_severity r).
      - now rewrite Hr. }
    assert (Hex : existsb (fun e => is_ERROR (vr_severity e)) results = true
                  <-> exists r, In r results /\ vr_severity r = ERROR).
    { rewrite existsb_exists. split; intros [r [Hin Hr]]; exists r;
        split; auto.
      - now destruct (vr_severity r).
      - now rewrite Hr. }
    split.
    + intros H. apply Hw in H. now rewrite H.
    + intros Hno.
      assert (Hnow : existsb (fun r => is_WARNING (vr_severity r)) results
                     = false).
      { destruct (existsb (fun r => is_WARNING (vr_severity r)) results);
          [|reflexivity].
        destruct (proj1 Hw eq_refl) as [r [Hin Hr]]. now elim (Hno r Hin). }
      rewrite Hnow. split.
      * clear -Hno. induction results as [|r results IH]; [reflexivity|].
        cbn [before_WARNING].
        assert (Hr : is_WARNING (vr_severity r) = false).
        { specialize (Hno r (or_introl eq_refl)).
          now destruct (vr_severity r). }
        rewrite Hr, IH; [reflexivity|].
        intros x Hx. apply Hno. now right.
      * destruct (existsb (fun e => is_ERROR (vr_severity e)) results).
        -- split.
           ++ split; [intros _; now apply Hex | reflexivity].
           ++ split; [discriminate|]. intros H.
              destruct (proj1 Hex eq_refl) as [r [Hin Hr]].
              now elim (H r Hin).
        -- split.
           ++ split; [discriminate|]. intros H. apply Hex in H. discriminate.
           ++ split; [|reflexivity]. intros _ r Hin Hr.
              assert (Hft : false = true) by (apply Hex; now exists r).
              discriminate.
Qed.

Lemma validate_bids_shows_findings_then_exits_on_ERROR_witness :
  validate_bids demo_validators ["ds"] None false None []
  = (Raise SystemExit_1,
     [Secho "ds/sub-01/foo.txt: 1 issue detected." false "red";
      Secho "  [BIDS.NON_BIDS_PATH_PLACEHOLDER] File does not match any pattern"
        false "red"]).
Proof.
  destruct (validate_bids_shows_findings_then_exits_on_ERROR demo_validators
              ["ds"] None false None []) as [_ H].
  destruct (H _ eq_refl) as (Hshown & _ & Hnow).
  destruct Hnow as (_ & Hexit & _).
  - intros r [<-|[<-|[]]]; discriminate.
  - rewrite (surjective_pairing (validate_bids _ _ _ _ _ _)).
    rewrite Hshown.
    assert (Hfst : fst (validate_bids demo_validators ["ds"] None false None [])
                   = Raise SystemExit_1).
    { apply Hexit. eexists. split; [left; reflexivity|]. reflexivity. }
    rewrite Hfst. reflexivity.
Defined.

(** [validate] first mutes the log handlers, then shows, for each file
    reported with errors, a summary and one line per error, all in blue,
    and ends with one bold summary: green, returning normally, when no
    file counts as failed, red with the count k out of n reports and exit
    status 1 otherwise.  k never exceeds n, and is the number of reports
    with errors when no path is reported twice.  With no path given the
    current directory is validated.  When the validator breaks off, its
    exception is passed on after the files shown so far, with no summary. *)
Theorem validate_shows_each_file_then_one_summary
  (V : ValidateEnv) (paths : list string) (schema : option string)
  (devel_debug allow_any_path : bool) (t : console) :
  let reports :=
    validate_ V (if nonempty paths then paths else ["."]) schema
      devel_debug allow_any_path in
  let n := List.length (reported reports) in
  let shown :=
    (t ++ map AddFilter (root_handlers V) ++ [IgnoreBenignWarnings]
       ++ flat_map (nwb_lines V) (reported reports))%list in
  exists k : nat,
    k <= n
    /\ (NoDup (map fst (reported reports)) ->
        k = List.length
              (filter (fun fe => nonempty (snd fe)) (reported reports)))
    /\ validate V paths schema devel_debug allow_any_path t
       = match broke reports with
         | Some e => (Raise e, shown)
         | None =>
             if Nat.eqb k 0 then
               (Ok tt,
                (shown ++ [Secho ("Summary: No validation errors among "
                                    ++ PyStr.str_of_nat n ++ " file(s)")
                             true "green"])%list)
             else
               (Raise SystemExit_1,
                (shown ++ [Secho ("Summary: Validation errors in "
                                    ++ PyStr.str_of_nat k ++ " out of "
                                    ++ PyStr.str_of_nat n ++ " files")
                             true "red"])%list)
         end.
Proof.
  intros reports n shown.
  exists (List.length
            (filter (fun fe => nonempty (snd fe))
               (fold_left record_report (reported reports) []))).
  split; [|split].
  - pose proof (reports_dict_length (reported reports) []) as Hlen.
    pose proof (filter_length_le (fun fe : string * list string =>
                                    nonempty (snd fe))
                  (fold_left record_report (reported reports) [])) as Hf.
    simpl in Hlen. subst n. lia.
  - intros Hnd. now rewrite (reports_dict_when_distinct _ [] Hnd).
  - apply (validate_run V paths schema devel_debug allow_any_path t).
Qed.

Lemma validate_shows_each_file_then_one_summary_witness :
  validate demo_validators ["ok.nwb"; "bad.nwb"] None false false []
  = (Raise SystemExit_1,
     [AddFilter "stderr"; AddFilter "logfile"; IgnoreBenignWarnings;
      Secho "bad.nwb: 2 issues detected." false "blue";
      Secho "  [NWBError] no subject" false "blue";
      Secho "  [NWBError] no session" false "blue";
      Secho "Summary: Validation errors in 1 out of 2 files" true "red"]).
Proof.
  destruct (validate_shows_each_file_then_one_summary demo_validators
              ["ok.nwb"; "bad.nwb"] None false false [])
    as (k & _ & Hk & Hrun).
  rewrite Hrun. rewrite Hk; [reflexivity|].
  simpl. repeat constructor; simpl; intuition discriminate.
Defined.

(** [validate] exits with status 1 exactly when some path was last
    reported with errors: a path reported again without errors no longer
    counts, although its errors were shown. *)
Theorem validate_fails_iff_a_path_was_last_reported_with_errors
  (V : ValidateEnv) (paths : list string) (schema : option string)
  (devel_debug allow_any_path : bool) (t : console) :
  let reports :=
    validate_ V (if nonempty paths then paths else ["."]) schema
      devel_debug allow_any_path in
  let run := validate V paths schema devel_debug allow_any_path t in
  broke reports = None ->
  (fst run = Raise SystemExit_1
   <-> exists p errs,
         last_report p (reported reports) = Some errs /\ errs <> [])
  /\ (fst run = Ok tt
      <-> forall p errs,
            last_report p (reported reports) = Some errs -> errs = []).
Proof.
  intros reports run Hbroke. subst run.
  pose proof (validate_run V paths schema devel_debug allow_any_path t) as Hrun.
  cbv zeta in Hrun. unfold curdir in Hrun. fold reports in Hrun.
  rewrite Hbroke in Hrun.
  set (final := fold_left record_report (reported reports) []) in *.
  assert (Hfinal : forall p errs,
             In (p, errs) final <-> last_report p (reported reports) = Some errs).
  { intros p errs.
    destruct (reports_dict_In (reported reports) [] p errs (NoDup_nil _))
      as [_ Hin].
    fold final in Hin. rewrite Hin. split; [|now left].
    intros [H|[_ []]]. exact H. }
  assert (Hk : filter (fun fe : string * list string => nonempty (snd fe)) final
               = []
               <-> forall p errs,
                     last_report p (reported reports) = Some errs -> errs = []).
  { split.
    - intros Hnil p errs Hlast. apply Hfinal in Hlast.
      destruct errs as [|e errs]; [reflexivity|].
      assert (Hin : In (p, e :: errs)
                       (filter (fun fe : string * list string =>
                                  nonempty (snd fe)) final))
        by (apply filter_In; now split).
      rewrite Hnil in Hin. destruct Hin.
    - intros Hall.
      destruct (filter (fun fe : string * list string => nonempty (snd fe))
                  final) as [|[p errs] l] eqn:Hf; [reflexivity|].
      assert (Hin : In (p, errs)
                       (filter (fun fe : string * list string =>
                                  nonempty (snd fe)) final))
        by (rewrite Hf; now left).
      apply filter_In in Hin. destruct Hin as [Hin Hne].
      apply Hfinal in Hin. rewrite (Hall p errs Hin) in Hne. discriminate. }
  destruct (filter (fun fe : string * list string => nonempty (snd fe)) final)
    as [|[p errs] l] eqn:Hf; simpl in Hrun; rewrite Hrun; simpl.
  - split; split; try discriminate; try reflexivity.
    + intros (p & errs & Hlast & Hne). elim Hne.
      now apply (proj1 Hk eq_refl p errs).
    + intros _. now apply Hk.
  - assert (Hin : In (p, errs)
                     (filter (fun fe : string * list string =>
                                nonempty (snd fe)) final))
      by (rewrite Hf; now left).
    apply filter_In in Hin. destruct Hin as [Hin Hne]. apply Hfinal in Hin.
    split; split; try discriminate; try reflexivity.
    + intros _. exists p, errs. split; [exact Hin|].
      intros ->. discriminate.
    + intros Hall. rewrite (Hall p errs Hin) in Hne. discriminate.
Qed.

Lemma validate_fails_iff_a_path_was_last_reported_with_errors_witness :
  fst (validate demo_validators ["bad.nwb"; "ok.nwb"] None false false [])
  = Raise SystemExit_1.
Proof.
  destruct (validate_fails_iff_a_path_was_last_reported_with_errors
              demo_validators ["bad.nwb"; "ok.nwb"] None false false []
              eq_refl) as [Hexit _].
  apply Hexit. exists "bad.nwb", ["no subject"; "no session"].
  split; [reflexivity | discriminate].
Defined.
